(** * Dinamic-Clipboard: the Unix-socket acknowledgment server

    A verification development for [src/server/server.c].  The three C
    functions [start_server], [init_server] and [handle_client] are embedded
    as interaction trees over the system calls they issue; a small model of
    the operating system answers the calls from a script of replies and
    records every call in a log, so that properties of the server become
    properties of logs. *)

From Stdlib Require Import ZArith String List Bool Lia.
From Stdlib.Strings Require Import Byte.
From ITree Require Import ITree Eq.Shallow.
Import ListNotations.
Import ITreeNotations.

Local Open Scope Z_scope.
Local Open Scope itree_scope.

(** ** Constants of the C library and of the source *)

Definition AF_UNIX : Z := 1.
Definition SOCK_STREAM : Z := 1.

(** Modelled from the spec: the identifier [SOCK_STEAM] that the source passes
    as the socket type is declared nowhere under src/ (the header server.h is
    absent); the spec calls the endpoint "stream-oriented". *)
Definition SOCK_STEAM : Z := SOCK_STREAM.

(** [struct sockaddr_un]: a family tag and a path. *)
Record sockaddr_un : Type := mk_sockaddr_un { sun_family : Z; sun_path : string }.

(** [sizeof(struct sockaddr_un)]: two bytes of family, 108 bytes of path. *)
Definition sizeof_sa_family : Z := 2.
Definition sizeof_sockaddr_un : Z := 110.

(** [char buffer[256]] *)
Definition sizeof_buffer : Z := 256.

(** ** C strings *)

(** The bytes of a NUL-terminated string that starts at the beginning of
    [mem]: everything before the first NUL. *)
Fixpoint c_string (mem : list byte) : list byte :=
  match mem with
  | [] => []
  | b :: rest => if Byte.eqb b x00 then [] else b :: c_string rest
  end.

Definition has_nul (mem : list byte) : bool := existsb (Byte.eqb x00) mem.

Definition strlen (mem : list byte) : Z := Z.of_nat (length (c_string mem)).

(** A string literal as it lies in memory, with its terminator. *)
Definition literal (s : string) : list byte := list_byte_of_string s ++ [x00].

(** ** System calls and memory accesses of the server *)

Variant sysE : Type -> Type :=
| Socket (domain type protocol : Z) : sysE Z
| Bind (fd : Z) (addr : sockaddr_un) (addrlen : Z) : sysE Z
| Listen (fd backlog : Z) : sysE Z
| Accept (fd : Z) : sysE Z
| Recv (fd len flags : Z) : sysE Z
| Send (fd : Z) (buf : list byte) (len flags : Z) : sysE Z
| Close (fd : Z) : sysE unit
| Puts (s : string) : sysE unit
| PrintfBuffer (before after : string) : sysE unit
| StoreBuffer (idx : Z) (b : byte) : sysE unit
| SetServerSocket (fd : Z) : sysE unit
| GetServerSocket : sysE Z.

(** What the log keeps of each call: its arguments and its result. *)
Inductive call : Type :=
| CSocket (domain type protocol ret : Z)
| CBind (fd : Z) (addr : sockaddr_un) (addrlen ret : Z)
| CListen (fd backlog ret : Z)
| CAccept (fd ret : Z)
| CRecv (fd len flags ret : Z) (data : list byte)
| CSend (fd : Z) (payload : list byte) (flags ret : Z)
| CClose (fd : Z)
| CPuts (s : string)
| CPrintf (text : list byte)
| CStore (idx : Z) (b : byte).

(** What the environment hands back: an integer result, or, for a receive,
    the bytes the peer has queued on the connection.  A reply of the wrong
    kind for the call that meets it (bytes for [accept], a count for [recv])
    is no answer: the call waits, as it does when the script is used up. *)
Inductive reply : Type :=
| RInt (z : Z)
| RBytes (m : list byte).

(** The state the server runs against.  [server_socket] is the global of the
    source, [buffer] the stack slot of [handle_client]'s local array (its
    contents at entry are whatever was left there), [replies] the answers the
    environment will give, in order, and [log] the calls made so far. *)
Record world : Type := mk_world {
  server_socket : Z;
  buffer : list byte;
  replies : list reply;
  log : list call
}.

Definition set_server_socket (v : Z) (w : world) : world :=
  mk_world v (buffer w) (replies w) (log w).
Definition set_buffer (b : list byte) (w : world) : world :=
  mk_world (server_socket w) b (replies w) (log w).
Definition set_replies (r : list reply) (w : world) : world :=
  mk_world (server_socket w) (buffer w) r (log w).
Definition record (c : call) (w : world) : world :=
  mk_world (server_socket w) (buffer w) (replies w) (log w ++ [c]).

(** The answer of the environment to one event. *)
Variant answer (T : Type) : Type :=
| Answered (w : world) (a : T)
| Blocks
| Faults.
Arguments Answered {T} w a.
Arguments Blocks {T}.
Arguments Faults {T}.

(** A call with an integer result takes the next reply of the script. *)
Definition int_call (mk : Z -> call) (w : world) : answer Z :=
  match replies w with
  | RInt z :: rest => Answered (record (mk z) (set_replies rest w)) z
  | _ => Blocks
  end.

(** [recv(fd, buffer, len, flags)]: a failure leaves the buffer alone; a
    success copies at most [len] of the queued bytes to the start of the
    buffer and returns how many. *)
Definition recv_call (fd len flags : Z) (w : world) : answer Z :=
  match replies w with
  | RInt z :: rest =>
      if z <? 0
      then Answered (record (CRecv fd len flags z []) (set_replies rest w)) z
      else Blocks
  | RBytes m :: rest =>
      let d := firstn (Z.to_nat len) m in
      let n := Z.of_nat (length d) in
      if (length d <=? length (buffer w))%nat
      then Answered
             (record (CRecv fd len flags n d)
                (set_buffer (d ++ skipn (length d) (buffer w)) (set_replies rest w)))
             n
      else Faults
  | [] => Blocks
  end.

(** [buffer[idx] = b] *)
Definition store_call (idx : Z) (b : byte) (w : world) : answer unit :=
  if (0 <=? idx) && (idx <? Z.of_nat (length (buffer w)))
  then Answered
         (record (CStore idx b)
            (set_buffer
               (firstn (Z.to_nat idx) (buffer w) ++ b :: skipn (S (Z.to_nat idx)) (buffer w))
               w))
         tt
  else Faults.

(** [send(fd, buf, len, flags)] offers the first [len] bytes of [buf] and
    returns what the kernel reports, or waits.  This is a send whose peer is
    still there; the signal that a send raises when the peer has closed is
    added by [exec_signals] below. *)
Definition send_call (fd : Z) (buf : list byte) (len flags : Z) (w : world) : answer Z :=
  if (0 <=? len) && (len <=? Z.of_nat (length buf))
  then int_call (CSend fd (firstn (Z.to_nat len) buf) flags) w
  else Faults.

(** [printf("...%s...", buffer)] reads the buffer up to its first NUL. *)
Definition printf_call (before after : string) (w : world) : answer unit :=
  if has_nul (buffer w)
  then Answered
         (record (CPrintf (list_byte_of_string before ++ c_string (buffer w)
                             ++ list_byte_of_string after)) w)
         tt
  else Faults.

(** The environment as a whole.  The calls whose result the source uses
    take it from the script; [close], [puts] and the accesses to the global
    always go through. *)
Definition kernel {T : Type} (e : sysE T) (w : world) : answer T :=
  match e in sysE T return answer T with
  | Socket d t p => int_call (CSocket d t p) w
  | Bind fd a l => int_call (CBind fd a l) w
  | Listen fd n => int_call (CListen fd n) w
  | Accept fd => int_call (CAccept fd) w
  | Recv fd len flags => recv_call fd len flags w
  | Send fd buf len flags => send_call fd buf len flags w
  | Close fd => Answered (record (CClose fd) w) tt
  | Puts s => Answered (record (CPuts s) w) tt
  | PrintfBuffer s1 s2 => printf_call s1 s2 w
  | StoreBuffer idx b => store_call idx b w
  | SetServerSocket fd => Answered (set_server_socket fd w) tt
  | GetServerSocket => Answered w (server_socket w)
  end.

(** ** Running a program *)

(** How a run ends: the program returned; or it waits in a call that the
    environment does not answer; or it left defined behaviour (an access
    outside the buffer); or the fuel of the run was used up. *)
Variant outcome (R : Type) : Type :=
| Returned (r : R)
| Blocked
| Undefined
| OutOfFuel.
Arguments Returned {R} r.
Arguments Blocked {R}.
Arguments Undefined {R}.
Arguments OutOfFuel {R}.

(** [exec fuel t w] runs [t] from [w]; every event and every silent step
    costs one unit of fuel.  The result carries the fuel that is left. *)
Fixpoint exec {R : Type} (fuel : nat) (t : itree sysE R) (w : world)
  : world * outcome R * nat :=
  match observe t with
  | RetF r => (w, Returned r, fuel)
  | TauF t' =>
      match fuel with
      | O => (w, OutOfFuel, O)
      | S f => exec f t' w
      end
  | VisF e k =>
      match fuel with
      | O => (w, OutOfFuel, O)
      | S f =>
          match kernel e w with
          | Answered w' a => exec f (k a) w'
          | Blocks => (w, Blocked, f)
          | Faults => (w, Undefined, f)
          end
      end
  end.

Definition run {R : Type} (fuel : nat) (t : itree sysE R) (w : world) : world * outcome R :=
  fst (exec fuel t w).

(** ** The server (src/server/server.c) *)

Definition server_address : sockaddr_un :=
  mk_sockaddr_un AF_UNIX "/tmp/arq_socket".

(** The third argument of the [bind] call as the source writes it:
    [sizeof(server_address) < 0], a comparison, whose value is 0 or 1. *)
Definition bind_addrlen : Z := Z.b2z (sizeof_sockaddr_un <? 0).

(** [int start_server()]; the global [server_socket] is written once and
    read before each use. *)
Definition start_server : itree sysE Z :=
  fd <- ITree.trigger (Socket AF_UNIX SOCK_STEAM 0) ;;
  ITree.trigger (SetServerSocket fd) ;;
  s <- ITree.trigger GetServerSocket ;;
  if s <? 0 then
    ITree.trigger (Puts "Erro na criacao do server_socket.") ;;
    Ret (-1)
  else
    s <- ITree.trigger GetServerSocket ;;
    b <- ITree.trigger (Bind s server_address bind_addrlen) ;;
    if negb (b =? 0) then
      ITree.trigger (Puts "Erro ao vincular o server_socket") ;;
      Ret (-1)
    else
      s <- ITree.trigger GetServerSocket ;;
      l <- ITree.trigger (Listen s 5) ;;
      if l <? 0 then
        ITree.trigger (Puts "Erro ao colocar o server_socket em listen") ;;
        Ret (-1)
      else
        ITree.trigger (Puts "Servidor iniciado e escutando...") ;;
        Ret 0.

(** The line feed that ends the [printf] format. *)
Definition newline : string := String (Ascii.ascii_of_nat 10) EmptyString.

Definition response : list byte := literal "ACK Server".

(** [void handle_client(int client_socket)] *)
Definition handle_client (client_socket : Z) : itree sysE unit :=
  bytes_received <- ITree.trigger (Recv client_socket (sizeof_buffer - 1) 0) ;;
  if bytes_received <? 0 then
    ITree.trigger (Puts "Erro ao receber dados do cliente")
  else
    ITree.trigger (StoreBuffer bytes_received x00) ;;
    ITree.trigger (PrintfBuffer "Cliente: " newline) ;;
    bytes_sent <- ITree.trigger (Send client_socket response (strlen response) 0) ;;
    if bytes_sent <? 0 then
      ITree.trigger (Puts "Erro ao enviar dados para o cliente")
    else
      ITree.trigger (Puts "Resposta enviada").

(** One turn of the [while (1)] loop of [init_server]. *)
Definition accept_once : itree sysE unit :=
  ITree.trigger (Puts "Aguardando conexao do cliente...") ;;
  s <- ITree.trigger GetServerSocket ;;
  client_socket <- ITree.trigger (Accept s) ;;
  if client_socket <? 0 then
    ITree.trigger (Puts "Erro ao aceitar a conexao")
  else
    ITree.trigger (Puts "Cliente conectado") ;;
    handle_client client_socket ;;
    ITree.trigger (Close client_socket) ;;
    ITree.trigger (Puts "Conexao encerrada").

(** [void init_server()]: the loop has neither [break] nor [return]. *)
Definition init_server : itree sysE void :=
  ITree.forever accept_once.

(** The ten bytes of the acknowledgment. *)
Definition ack_bytes : list byte :=
  [x41; x43; x4b; x20; x53; x65; x72; x76; x65; x72].

(** ** Reading logs *)

(** The calls made on connection [c]. *)
Definition on_connection (c : Z) (e : call) : bool :=
  match e with
  | CRecv fd _ _ _ _ => fd =? c
  | CSend fd _ _ _ => fd =? c
  | CClose fd => fd =? c
  | _ => false
  end.

Definition is_recv (e : call) : bool :=
  match e with CRecv _ _ _ _ _ => true | _ => false end.

Definition is_send (e : call) : bool :=
  match e with CSend _ _ _ _ => true | _ => false end.

Definition is_store (e : call) : bool :=
  match e with CStore _ _ => true | _ => false end.

Definition is_listen (e : call) : bool :=
  match e with CListen _ _ _ => true | _ => false end.

(** The life of connections as a log shows it: the listener is [Idle]; or a
    connection was [Accepted] and awaits its receive; or it has received and
    is [Replying]; or the handler has made its last call on it and the
    connection is [Closing]. *)
Inductive phase : Type :=
| Idle
| Accepted (c : Z)
| Replying (c : Z)
| Closing (c : Z).

Definition transition (p : phase) (e : call) : option phase :=
  match e, p with
  | CAccept _ r, Idle => Some (if r <? 0 then Idle else Accepted r)
  | CAccept _ _, _ => None
  | CRecv fd _ _ r _, Accepted c =>
      if fd =? c then Some (if r <? 0 then Closing c else Replying c) else None
  | CRecv _ _ _ _ _, _ => None
  | CSend fd _ _ _, Replying c => if fd =? c then Some (Closing c) else None
  | CSend _ _ _ _, _ => None
  | CClose fd, Closing c => if fd =? c then Some Idle else None
  | CClose _, _ => None
  | _, _ => Some p
  end.

Fixpoint sessions (p : phase) (l : list call) : option phase :=
  match l with
  | [] => Some p
  | e :: l' =>
      match transition p e with
      | Some p' => sessions p' l'
      | None => None
      end
  end.

(** ** Startup, step by step *)

Definition startup_steps (fd b l : Z) : list call :=
  [CSocket AF_UNIX SOCK_STREAM 0 fd;
   CBind fd server_address bind_addrlen b;
   CListen fd 5 l].

(** The first step that fails, if any: a negative descriptor, a [bind] result
    other than 0, a negative [listen] result. *)
Definition startup_failure (fd b l : Z) : option nat :=
  if fd <? 0 then Some 0%nat
  else if negb (b =? 0) then Some 1%nat
  else if l <? 0 then Some 2%nat
  else None.

Definition startup_report (step : nat) : string :=
  match step with
  | 0%nat => "Erro na criacao do server_socket."
  | 1%nat => "Erro ao vincular o server_socket"
  | _ => "Erro ao colocar o server_socket em listen"
  end.

(** ** The environment's [bind] *)

(** The socket paths of the file system: those already bound and those the
    process may not create. *)
Record namespace : Type := mk_namespace {
  bound_paths : list string;
  denied_paths : list string
}.

Definition path_in_use (ns : namespace) (p : string) : bool :=
  existsb (String.eqb p) (bound_paths ns).

Definition path_inaccessible (ns : namespace) (p : string) : bool :=
  existsb (String.eqb p) (denied_paths ns).

(** [bind(2)] on a Unix-domain socket: an address length too short to hold
    the family is refused (EINVAL), as is a path in use (EADDRINUSE) or out of
    reach (EACCES); otherwise the socket is bound. *)
Definition posix_bind (ns : namespace) (addr : sockaddr_un) (addrlen : Z) : Z :=
  if addrlen <? sizeof_sa_family then -1
  else if path_in_use ns (sun_path addr) then -1
  else if path_inaccessible ns (sun_path addr) then -1
  else 0.

(** ** The server seen from its log *)

(** What [handle_client] logs on connection [c] against the pending replies:
    the calls, whether the handler returns (rather than waits in a call for
    an answer that never comes), and the replies it leaves. *)
Definition handled (c : Z) (reps : list reply) : list call * bool * list reply :=
  match reps with
  | RInt z :: rest =>
      if z <? 0
      then ([CRecv c 255 0 z []; CPuts "Erro ao receber dados do cliente"], true, rest)
      else ([], false, reps)
  | RBytes m :: rest =>
      let d := firstn 255 m in
      let received :=
        [CRecv c 255 0 (Z.of_nat (length d)) d;
         CStore (Z.of_nat (length d)) x00;
         CPrintf (list_byte_of_string "Cliente: " ++ c_string d
                    ++ list_byte_of_string newline)] in
      match rest with
      | RInt s :: rest' =>
          (received ++
           [CSend c ack_bytes 0 s;
            CPuts (if s <? 0 then "Erro ao enviar dados para o cliente"
                   else "Resposta enviada")],
           true, rest')
      | _ => (received, false, rest)
      end
  | [] => ([], false, reps)
  end.

(** The same for one turn of the accept loop on the listening socket [ss]. *)
Definition turn (ss : Z) (reps : list reply) : list call * bool * list reply :=
  match reps with
  | RInt c :: rest =>
      if c <? 0
      then ([CPuts "Aguardando conexao do cliente...";
             CAccept ss c;
             CPuts "Erro ao aceitar a conexao"], true, rest)
      else
        let opened :=
          [CPuts "Aguardando conexao do cliente...";
           CAccept ss c;
           CPuts "Cliente conectado"] in
        match handled c rest with
        | (d, true, rest') =>
            (opened ++ d ++ [CClose c; CPuts "Conexao encerrada"], true, rest')
        | (d, false, rest') => (opened ++ d, false, rest')
        end
  | _ => ([CPuts "Aguardando conexao do cliente..."], false, reps)
  end.

(** The log of at most [n] turns in a row: a turn that returns is followed
    by the next one. *)
Fixpoint serve (n : nat) (ss : Z) (reps : list reply) : list call :=
  match n with
  | O => []
  | S n' =>
      match turn ss reps with
      | (d, true, rest) => d ++ serve n' ss rest
      | (d, false, _) => d
      end
  end.

(** Fuel that lets the accept loop use up the pending replies: a turn takes
    at most twelve steps and, if it returns, at least one reply. *)
Definition enough_fuel (w : world) : nat := 12 * S (length (replies w)).

(** Lines of the log. *)
Definition is_puts (s : string) (e : call) : bool :=
  match e with CPuts s' => String.eqb s s' | _ => false end.

(** The turns begun and the turns ended that a log shows. *)
Definition turns_begun (l : list call) : nat :=
  length (filter (is_puts "Aguardando conexao do cliente...") l).

Definition turns_ended (l : list call) : nat :=
  length (filter (fun e => is_puts "Conexao encerrada" e
                           || is_puts "Erro ao aceitar a conexao" e) l).

(** Every send of a log carries the acknowledgment. *)
Definition sends_ack (e : call) : Prop :=
  match e with
  | CSend _ payload _ _ => payload = ack_bytes
  | _ => True
  end.

(** ** More of the server seen from its log *)

(** What [start_server] logs against the pending replies: the calls, the
    result if it returns (none if it waits in a call), the replies it leaves. *)
Definition started (reps : list reply) : list call * option Z * list reply :=
  match reps with
  | RInt fd :: rest =>
      let created := CSocket AF_UNIX SOCK_STREAM 0 fd in
      if fd <? 0
      then ([created; CPuts "Erro na criacao do server_socket."], Some (-1), rest)
      else
        match rest with
        | RInt b :: rest' =>
            let bound := CBind fd server_address bind_addrlen b in
            if negb (b =? 0)
            then ([created; bound; CPuts "Erro ao vincular o server_socket"],
                  Some (-1), rest')
            else
              match rest' with
              | RInt l :: rest'' =>
                  if l <? 0
                  then ([created; bound; CListen fd 5 l;
                         CPuts "Erro ao colocar o server_socket em listen"],
                        Some (-1), rest'')
                  else ([created; bound; CListen fd 5 l;
                         CPuts "Servidor iniciado e escutando..."],
                        Some 0, rest'')
              | _ => ([created; bound], None, rest')
              end
        | _ => ([created], None, rest)
        end
  | _ => ([], None, reps)
  end.

(** The global after [start_server]: the result of [socket], if there was one. *)
Definition started_socket (old : Z) (reps : list reply) : Z :=
  match reps with
  | RInt fd :: _ => fd
  | _ => old
  end.

Definition is_close (e : call) : bool :=
  match e with CClose _ => true | _ => false end.

Definition is_printf (e : call) : bool :=
  match e with CPrintf _ => true | _ => false end.

(** The calls of startup: the three system calls and the reports. *)
Definition startup_call (e : call) : bool :=
  match e with
  | CSocket _ _ _ _ | CBind _ _ _ _ | CListen _ _ _ | CPuts _ => true
  | _ => false
  end.

(** A [bind] entry whose result is the one the kernel model gives. *)
Definition bind_conforms (ns : namespace) (e : call) : Prop :=
  match e with
  | CBind _ addr addrlen ret => ret = posix_bind ns addr addrlen
  | _ => True
  end.

(** A call the accept loop may make when the listening socket is [ss]: no
    call of startup, and no [accept] on another descriptor. *)
Definition loop_call (ss : Z) (e : call) : Prop :=
  match e with
  | CAccept fd _ => fd = ss
  | CSocket _ _ _ _ | CBind _ _ _ _ | CListen _ _ _ => False
  | _ => True
  end.

(** The log of one failed accept. *)
Definition failed_accept (ss z : Z) : list call :=
  [CPuts "Aguardando conexao do cliente...";
   CAccept ss z;
   CPuts "Erro ao aceitar a conexao"].

(** A client as the environment presents it: the descriptor [accept] returns,
    the bytes it has queued, the result of the [send] to it. *)
Definition client : Type := (Z * list byte * Z)%type.

Definition client_replies (x : client) : list reply :=
  match x with (c, m, s) => [RInt c; RBytes m; RInt s] end.

Definition client_ack (x : client) : call :=
  match x with (c, _, s) => CSend c ack_bytes 0 s end.

Definition client_fd (x : client) : Z :=
  match x with (c, _, _) => c end.

(** The line [printf("Cliente: %s\n", buffer)] writes for the text [text]. *)
Definition client_line (text : list byte) : list byte :=
  list_byte_of_string "Cliente: " ++ text ++ list_byte_of_string newline.

(** ** Signals *)

(** [exec] describes the process as long as no signal is delivered to it.
    The source installs no handler and sends with flags 0, so a [send] on a
    connection whose peer has closed raises SIGPIPE, whose default action
    ends the process.  [closed] tells, for the sends of a run in their
    order, whether the peer has closed by then. *)
Definition MSG_NOSIGNAL : Z := 16384.

Definition raises_sigpipe (flags : Z) : bool := negb (Z.testbit flags 14).

Definition sigpipe {T : Type} (e : sysE T) (closed : list bool) : bool * list bool :=
  match e with
  | Send _ _ _ flags =>
      match closed with
      | gone :: later => (gone && raises_sigpipe flags, later)
      | [] => (false, [])
      end
  | _ => (false, closed)
  end.

(** The process lives, with one of the outcomes of [exec], or was killed by
    the signal. *)
Variant fate (R : Type) : Type :=
| Lives (o : outcome R)
| Killed.
Arguments Lives {R} o.
Arguments Killed {R}.

(** [exec] with signals: a send that raises SIGPIPE ends the run where it
    stands; every other step is the step of [exec]. *)
Fixpoint exec_signals {R : Type} (fuel : nat) (t : itree sysE R) (w : world)
  (closed : list bool) : world * fate R * nat * list bool :=
  match observe t with
  | RetF r => (w, Lives (Returned r), fuel, closed)
  | TauF t' =>
      match fuel with
      | O => (w, Lives OutOfFuel, O, closed)
      | S f => exec_signals f t' w closed
      end
  | VisF e k =>
      match fuel with
      | O => (w, Lives OutOfFuel, O, closed)
      | S f =>
          match sigpipe e closed with
          | (true, later) => (w, Killed, f, later)
          | (false, later) =>
              match kernel e w with
              | Answered w' a => exec_signals f (k a) w' later
              | Blocks => (w, Lives Blocked, f, later)
              | Faults => (w, Lives Undefined, f, later)
              end
          end
      end
  end.

Definition run_signals {R : Type} (fuel : nat) (t : itree sysE R) (w : world)
  (closed : list bool) : world * fate R :=
  fst (fst (exec_signals fuel t w closed)).

(** No send of the run finds its peer gone. *)
Definition no_sigpipe (closed : list bool) : Prop :=
  Forall (fun gone => gone = false) closed.
(** ** The model at work *)

Example c_string_stops_at_nul :
  c_string [x68; x69; x00; x41] = [x68; x69].
Proof. reflexivity. Qed.

Example response_in_memory :
  response = ack_bytes ++ [x00] /\ strlen response = 10.
Proof. split; reflexivity. Qed.

Example bind_addrlen_value : bind_addrlen = 0.
Proof. reflexivity. Qed.

(** Startup against a kernel that accepts every call. *)
Example start_server_accepted :
  run 8 start_server (mk_world 0 [] [RInt 3; RInt 0; RInt 0] []) =
  (mk_world 3 [] []
     [CSocket 1 1 0 3;
      CBind 3 (mk_sockaddr_un 1 "/tmp/arq_socket") 0 0;
      CListen 3 5 0;
      CPuts "Servidor iniciado e escutando..."],
   Returned 0).
Proof. reflexivity. Qed.

(** Three turns of the loop: a client that says "hi", a failed accept, a
    client whose receive fails; then the loop waits in [accept]. *)
Example init_server_three_turns :
  let w := mk_world 3 (repeat x41 256)
             [RInt 4; RBytes [x68; x69]; RInt 10; RInt (-1); RInt 5; RInt (-1)] [] in
  snd (run 40 init_server w) = Blocked /\
  log (fst (run 40 init_server w)) =
  [CPuts "Aguardando conexao do cliente...";
   CAccept 3 4;
   CPuts "Cliente conectado";
   CRecv 4 255 0 2 [x68; x69];
   CStore 2 x00;
   CPrintf (list_byte_of_string "Cliente: hi" ++ [x0a]);
   CSend 4 ack_bytes 0 10;
   CPuts "Resposta enviada";
   CClose 4;
   CPuts "Conexao encerrada";
   CPuts "Aguardando conexao do cliente...";
   CAccept 3 (-1);
   CPuts "Erro ao aceitar a conexao";
   CPuts "Aguardando conexao do cliente...";
   CAccept 3 5;
   CPuts "Cliente conectado";
   CRecv 5 255 0 (-1) [];
   CPuts "Erro ao receber dados do cliente";
   CClose 5;
   CPuts "Conexao encerrada";
   CPuts "Aguardando conexao do cliente..."].
Proof. split; vm_compute; reflexivity. Qed.

(** A handler whose buffer were too small for the terminator would go
    wrong; the model sees it. *)
Example store_past_the_end_is_undefined :
  snd (run 5 (ITree.trigger (StoreBuffer 256 x00)) (mk_world 3 (repeat x41 256) [] []))
  = Undefined.
Proof. reflexivity. Qed.

(** ** How [exec] unfolds *)

Section Exec.

Context {R : Type}.

Lemma exec_observe (fuel : nat) (t u : itree sysE R) (w : world) :
  observe t = observe u -> exec fuel t w = exec fuel u w.
Proof.
  intros H. destruct fuel; simpl; rewrite H; reflexivity.
Qed.

Lemma exec_ret (fuel : nat) (r : R) (w : world) :
  exec fuel (Ret r) w = (w, Returned r, fuel).
Proof. destruct fuel; reflexivity. Qed.

(** A call followed by the rest of the program. *)
Lemma exec_call {T : Type} (e : sysE T) (k : T -> itree sysE R) (fuel : nat) (w : world) :
  exec (S fuel) (ITree.bind (ITree.trigger e) k) w =
  match kernel e w with
  | Answered w' a => exec fuel (k a) w'
  | Blocks => (w, Blocked, fuel)
  | Faults => (w, Undefined, fuel)
  end.
Proof.
  simpl. destruct (kernel e w); try reflexivity.
  apply exec_observe. reflexivity.
Qed.

End Exec.

(** A call in tail position. *)
Lemma exec_last {T : Type} (e : sysE T) (fuel : nat) (w : world) :
  exec (S fuel) (ITree.trigger e) w =
  match kernel e w with
  | Answered w' a => (w', Returned a, fuel)
  | Blocks => (w, Blocked, fuel)
  | Faults => (w, Undefined, fuel)
  end.
Proof.
  simpl. destruct (kernel e w); try reflexivity.
  apply exec_ret.
Qed.

(** Sequencing: run the first part, then the second on the fuel that remains. *)
Lemma exec_bind {A B : Type} (fuel : nat) (t : itree sysE A) (k : A -> itree sysE B) (w : world) :
  exec fuel (ITree.bind t k) w =
  match exec fuel t w with
  | (w1, Returned a, rest) => exec rest (k a) w1
  | (w1, Blocked, rest) => (w1, Blocked, rest)
  | (w1, Undefined, rest) => (w1, Undefined, rest)
  | (w1, OutOfFuel, rest) => (w1, OutOfFuel, rest)
  end.
Proof.
  revert t w. induction fuel as [|fuel IH]; intros t w;
    rewrite (exec_observe _ _ _ _ (observe_bind t k)).
  - simpl. destruct (observe t); reflexivity.
  - simpl. destruct (observe t); simpl.
    + reflexivity.
    + apply IH.
    + destruct (kernel e w); try reflexivity. apply IH.
Qed.

(** The fuel that remains never exceeds the fuel that was given. *)
Lemma exec_left_le {R : Type} (fuel : nat) (t : itree sysE R) (w : world) :
  (snd (exec fuel t w) <= fuel)%nat.
Proof.
  revert t w. induction fuel as [|fuel IH]; intros t w; simpl.
  - destruct (observe t); simpl; lia.
  - destruct (observe t); simpl; try lia.
    + specialize (IH t0 w). lia.
    + destruct (kernel e w); simpl; try lia.
      specialize (IH (k a) w0). lia.
Qed.

(** One turn of a [forever] loop: the body, a silent step, the loop again. *)
Lemma exec_forever {A B : Type} (fuel : nat) (t : itree sysE A) (w : world) :
  exec fuel (ITree.forever t : itree sysE B) w =
  match exec fuel t w with
  | (w1, Returned _, S rest) => exec rest (ITree.forever t) w1
  | (w1, Returned _, O) => (w1, OutOfFuel, O)
  | (w1, Blocked, rest) => (w1, Blocked, rest)
  | (w1, Undefined, rest) => (w1, Undefined, rest)
  | (w1, OutOfFuel, rest) => (w1, OutOfFuel, rest)
  end.
Proof.
  rewrite (exec_observe fuel (ITree.forever t)
             (ITree.bind t (fun _ => Tau (ITree.forever t))) w) by reflexivity.
  rewrite exec_bind.
  destruct (exec fuel t w) as [[w1 o] rest]. destruct o; try reflexivity.
  destruct rest; reflexivity.
Qed.

Lemma exec_bind_bind {A B C : Type} (fuel : nat) (t : itree sysE A)
  (k : A -> itree sysE B) (h : B -> itree sysE C) (w : world) :
  exec fuel (ITree.bind (ITree.bind t k) h) w =
  exec fuel (ITree.bind t (fun a => ITree.bind (k a) h)) w.
Proof.
  rewrite !exec_bind.
  destruct (exec fuel t w) as [[w1 o] rest]. destruct o; try reflexivity.
  rewrite exec_bind. reflexivity.
Qed.

Lemma exec_call_O {R T : Type} (e : sysE T) (k : T -> itree sysE R) (w : world) :
  exec 0 (ITree.bind (ITree.trigger e) k) w = (w, OutOfFuel, 0%nat).
Proof. reflexivity. Qed.

Lemma exec_last_O {T : Type} (e : sysE T) (w : world) :
  exec 0 (ITree.trigger e) w = (w, OutOfFuel, 0%nat).
Proof. reflexivity. Qed.

Ltac world_simpl :=
  cbn [kernel];
  unfold int_call, record, set_replies, set_buffer, set_server_socket;
  cbn [replies log buffer server_socket];
  rewrite <- ?app_assoc; cbn [app].

Ltac call_step :=
  first [rewrite exec_call | rewrite exec_last | rewrite exec_bind_bind, exec_call];
  world_simpl.

(** ** Facts about C strings and the buffer *)

Lemma c_string_terminated (d rest : list byte) :
  c_string (d ++ x00 :: rest) = c_string d.
Proof.
  induction d as [|b d IH]; simpl.
  - reflexivity.
  - destruct (Byte.eqb b x00); [reflexivity | now rewrite IH].
Qed.

Lemma has_nul_terminated (d rest : list byte) :
  has_nul (d ++ x00 :: rest) = true.
Proof.
  unfold has_nul. rewrite existsb_app. simpl. apply orb_true_r.
Qed.

Lemma send_call_response (c : Z) (w : world) :
  send_call c response (strlen response) 0 w =
  int_call (CSend c (list_byte_of_string "ACK Server") 0) w.
Proof. reflexivity. Qed.

(** ** What the kernel does on the calls of [handle_client] *)

Lemma length_firstn_le {A : Type} (n : nat) (l : list A) :
  (length (firstn n l) <= n)%nat.
Proof. rewrite length_firstn. lia. Qed.

Lemma recv_call_bytes (c : Z) (w : world) (m : list byte) (rest : list reply) :
  length (buffer w) = 256%nat ->
  replies w = RBytes m :: rest ->
  recv_call c (sizeof_buffer - 1) 0 w =
  Answered
    (mk_world (server_socket w)
       (firstn 255 m ++ skipn (length (firstn 255 m)) (buffer w))
       rest
       (log w ++ [CRecv c 255 0 (Z.of_nat (length (firstn 255 m))) (firstn 255 m)]))
    (Z.of_nat (length (firstn 255 m))).
Proof.
  intros Hlen Hr. unfold recv_call. rewrite Hr.
  change (Z.to_nat (sizeof_buffer - 1)) with 255%nat.
  change (sizeof_buffer - 1) with 255.
  pose proof (length_firstn_le 255 m) as Hd.
  destruct (Nat.leb_spec (length (firstn 255 m)) (length (buffer w))) as [_|Hbad].
  - reflexivity.
  - lia.
Qed.

Lemma recv_call_error (c : Z) (w : world) (z : Z) (rest : list reply) :
  replies w = RInt z :: rest ->
  z < 0 ->
  recv_call c (sizeof_buffer - 1) 0 w =
  Answered
    (mk_world (server_socket w) (buffer w) rest (log w ++ [CRecv c 255 0 z []]))
    z.
Proof.
  intros Hr Hz. unfold recv_call. rewrite Hr.
  apply Z.ltb_lt in Hz. rewrite Hz. reflexivity.
Qed.

(** Storing the terminator right after [d] received bytes. *)
Lemma store_call_terminator (w : world) (d old : list byte) :
  buffer w = d ++ skipn (length d) old ->
  (length d < length old)%nat ->
  store_call (Z.of_nat (length d)) x00 w =
  Answered
    (mk_world (server_socket w) (d ++ x00 :: skipn (S (length d)) old) (replies w)
       (log w ++ [CStore (Z.of_nat (length d)) x00]))
    tt.
Proof.
  intros Hb Hlt. unfold store_call.
  assert (Hlen : length (buffer w) = length old).
  { rewrite Hb, length_app, length_skipn. lia. }
  rewrite Hlen.
  destruct (Z.leb_spec 0 (Z.of_nat (length d))) as [_|Hbad]; [|lia].
  destruct (Z.ltb_spec (Z.of_nat (length d)) (Z.of_nat (length old))) as [_|Hbad]; [|lia].
  cbn [andb]. unfold record, set_buffer; cbn [server_socket replies log buffer].
  rewrite Nat2Z.id, Hb.
  rewrite firstn_app, firstn_all, Nat.sub_diag, firstn_O, app_nil_r.
  rewrite skipn_app, skipn_all2 by lia.
  replace (S (length d) - length d)%nat with 1%nat by lia.
  rewrite skipn_skipn. cbn [app Nat.add]. reflexivity.
Qed.

Lemma printf_call_terminated (w : world) (d tail : list byte) (s1 s2 : string) :
  buffer w = d ++ x00 :: tail ->
  printf_call s1 s2 w =
  Answered
    (record (CPrintf (list_byte_of_string s1 ++ c_string d ++ list_byte_of_string s2)) w)
    tt.
Proof.
  intros Hb. unfold printf_call.
  rewrite Hb, has_nul_terminated, c_string_terminated. reflexivity.
Qed.

(** ** The paths through [handle_client] *)

(** The receive fails. *)
Lemma handle_client_recv_error (fuel : nat) (c : Z) (w : world) (z : Z) (rest : list reply) :
  replies w = RInt z :: rest ->
  z < 0 ->
  exec (2 + fuel) (handle_client c) w =
  (mk_world (server_socket w) (buffer w) rest
     (log w ++ [CRecv c 255 0 z []; CPuts "Erro ao receber dados do cliente"]),
   Returned tt, fuel).
Proof.
  intros Hr Hz. unfold handle_client. cbn [Nat.add].
  rewrite exec_call. cbn [kernel]. rewrite (recv_call_error c w z rest Hr Hz).
  apply Z.ltb_lt in Hz. rewrite Hz.
  call_step. reflexivity.
Qed.

(** The receive succeeds and the send is answered. *)
Lemma handle_client_answered (fuel : nat) (c : Z) (w : world) (m : list byte) (s : Z)
  (rest : list reply) :
  length (buffer w) = 256%nat ->
  replies w = RBytes m :: RInt s :: rest ->
  exec (5 + fuel) (handle_client c) w =
  (mk_world (server_socket w)
     (firstn 255 m ++ x00 :: skipn (S (length (firstn 255 m))) (buffer w))
     rest
     (log w ++
      [CRecv c 255 0 (Z.of_nat (length (firstn 255 m))) (firstn 255 m);
       CStore (Z.of_nat (length (firstn 255 m))) x00;
       CPrintf (list_byte_of_string "Cliente: " ++ c_string (firstn 255 m)
                  ++ list_byte_of_string newline);
       CSend c (list_byte_of_string "ACK Server") 0 s;
       CPuts (if s <? 0 then "Erro ao enviar dados para o cliente" else "Resposta enviada")]),
   Returned tt, fuel).
Proof.
  intros Hlen Hr. unfold handle_client. cbn [Nat.add].
  pose proof (length_firstn_le 255 m) as Hd.
  rewrite exec_call. cbn [kernel]. rewrite (recv_call_bytes c w m _ Hlen Hr).
  destruct (Z.ltb_spec (Z.of_nat (length (firstn 255 m))) 0) as [Hbad|_]; [lia|].
  rewrite exec_call. cbn [kernel].
  erewrite store_call_terminator; [|reflexivity|lia].
  cbn [server_socket replies log buffer].
  rewrite exec_call. cbn [kernel].
  erewrite printf_call_terminated; [|reflexivity].
  world_simpl.
  rewrite exec_call. cbn [kernel]. rewrite send_call_response.
  world_simpl.
  destruct (s <? 0); call_step; reflexivity.
Qed.

(** A run that did not stop for want of fuel is the same with more fuel. *)
Lemma exec_more_fuel {R : Type} (fuel extra : nat) :
  forall (t : itree sysE R) (w w' : world) (o : outcome R) (rest : nat),
    exec fuel t w = (w', o, rest) ->
    o <> OutOfFuel ->
    exec (fuel + extra) t w = (w', o, (rest + extra)%nat).
Proof.
  induction fuel as [|fuel IH]; intros t w w' o rest Hrun Ho.
  - cbn [Nat.add]. simpl in Hrun.
    destruct (observe t) eqn:Ht;
      injection Hrun as Hw Hout Hrest; subst w' o rest; try contradiction.
    rewrite (exec_observe extra t (Ret r) w) by exact Ht.
    apply exec_ret.
  - cbn [Nat.add]. simpl in Hrun |- *.
    destruct (observe t) eqn:Ht.
    + injection Hrun as Hw Hout Hrest; subst w' o rest. reflexivity.
    + apply IH; assumption.
    + destruct (kernel e w).
      * apply IH; assumption.
      * injection Hrun as Hw Hout Hrest; subst w' o rest. reflexivity.
      * injection Hrun as Hw Hout Hrest; subst w' o rest. reflexivity.
Qed.

(** ** The paths through one turn of the accept loop *)

Lemma accept_once_accept_error (fuel : nat) (w : world) (z : Z) (rest : list reply) :
  replies w = RInt z :: rest ->
  z < 0 ->
  exec (4 + fuel) accept_once w =
  (mk_world (server_socket w) (buffer w) rest
     (log w ++ [CPuts "Aguardando conexao do cliente...";
                CAccept (server_socket w) z;
                CPuts "Erro ao aceitar a conexao"]),
   Returned tt, fuel).
Proof.
  intros Hr Hz. unfold accept_once. cbn [Nat.add].
  do 3 call_step. rewrite Hr.
  apply Z.ltb_lt in Hz. rewrite Hz.
  call_step. reflexivity.
Qed.

(** After a successful accept the handler runs on the new descriptor; what
    follows it is the close and the last log line. *)
Lemma accept_once_accepted (fuel : nat) (w : world) (c : Z) (rest : list reply) :
  replies w = RInt c :: rest ->
  0 <= c ->
  exec (4 + fuel) accept_once w =
  exec fuel
    (handle_client c ;;
     ITree.trigger (Close c) ;;
     ITree.trigger (Puts "Conexao encerrada"))
    (mk_world (server_socket w) (buffer w) rest
       (log w ++ [CPuts "Aguardando conexao do cliente...";
                  CAccept (server_socket w) c;
                  CPuts "Cliente conectado"])).
Proof.
  intros Hr Hc. unfold accept_once. cbn [Nat.add].
  do 3 call_step. rewrite Hr.
  destruct (Z.ltb_spec c 0) as [Hbad|_]; [lia|].
  call_step. reflexivity.
Qed.

Lemma accept_once_recv_error (fuel : nat) (w : world) (c z : Z) (rest : list reply) :
  replies w = RInt c :: RInt z :: rest ->
  0 <= c ->
  z < 0 ->
  exec (8 + fuel) accept_once w =
  (mk_world (server_socket w) (buffer w) rest
     (log w ++ [CPuts "Aguardando conexao do cliente...";
                CAccept (server_socket w) c;
                CPuts "Cliente conectado";
                CRecv c 255 0 z [];
                CPuts "Erro ao receber dados do cliente";
                CClose c;
                CPuts "Conexao encerrada"]),
   Returned tt, fuel).
Proof.
  intros Hr Hc Hz.
  change (8 + fuel)%nat with (4 + (2 + (2 + fuel)))%nat.
  rewrite (accept_once_accepted _ w c _ Hr Hc).
  rewrite exec_bind.
  rewrite (handle_client_recv_error _ c _ z rest) by (trivial || reflexivity).
  cbn [server_socket replies log buffer Nat.add].
  do 2 call_step. reflexivity.
Qed.

Lemma accept_once_answered (fuel : nat) (w : world) (c s : Z) (m : list byte)
  (rest : list reply) :
  length (buffer w) = 256%nat ->
  replies w = RInt c :: RBytes m :: RInt s :: rest ->
  0 <= c ->
  exec (11 + fuel) accept_once w =
  (mk_world (server_socket w)
     (firstn 255 m ++ x00 :: skipn (S (length (firstn 255 m))) (buffer w))
     rest
     (log w ++
      [CPuts "Aguardando conexao do cliente...";
       CAccept (server_socket w) c;
       CPuts "Cliente conectado";
       CRecv c 255 0 (Z.of_nat (length (firstn 255 m))) (firstn 255 m);
       CStore (Z.of_nat (length (firstn 255 m))) x00;
       CPrintf (list_byte_of_string "Cliente: " ++ c_string (firstn 255 m)
                  ++ list_byte_of_string newline);
       CSend c (list_byte_of_string "ACK Server") 0 s;
       CPuts (if s <? 0 then "Erro ao enviar dados para o cliente" else "Resposta enviada");
       CClose c;
       CPuts "Conexao encerrada"]),
   Returned tt, fuel).
Proof.
  intros Hlen Hr Hc.
  change (11 + fuel)%nat with (4 + (5 + (2 + fuel)))%nat.
  rewrite (accept_once_accepted _ w c _ Hr Hc).
  rewrite exec_bind.
  rewrite (handle_client_answered _ c _ m s rest) by (trivial || reflexivity).
  cbn [server_socket replies log buffer Nat.add].
  do 2 call_step. reflexivity.
Qed.

(** ** The exchange on one connection *)

(** C1: on a connection whose receive delivers a message of 0 to 255 bytes,
    the handler offers to [send] exactly the ten bytes of "ACK Server", with no
    terminator and whatever the message was, and the next call on the
    connection is the listener's [close]. *)
Theorem ack_server_exchange (fuel : nat) (w : world) (c s : Z) (m : list byte)
  (rest : list reply) :
  length (buffer w) = 256%nat ->
  replies w = RInt c :: RBytes m :: RInt s :: rest ->
  0 <= c ->
  (length m <= 255)%nat ->
  exists w' d,
    run (11 + fuel) accept_once w = (w', Returned tt) /\
    log w' = log w ++ d /\
    filter (on_connection c) d =
      [CRecv c 255 0 (Z.of_nat (length m)) m; CSend c ack_bytes 0 s; CClose c] /\
    filter is_send d = [CSend c ack_bytes 0 s] /\
    ack_bytes = list_byte_of_string "ACK Server" /\
    length ack_bytes = 10%nat /\
    has_nul ack_bytes = false.
Proof.
  intros Hlen Hr Hc Hm.
  eexists. eexists. unfold run.
  rewrite (accept_once_answered fuel w c s m rest Hlen Hr Hc).
  cbn [fst log]. rewrite firstn_all2 by exact Hm.
  split; [reflexivity|]. split; [reflexivity|].
  cbn [filter on_connection is_send]. rewrite Z.eqb_refl.
  repeat split; reflexivity.
Qed.

Lemma ack_server_exchange_witness :
  exists w' d,
    run 11 accept_once (mk_world 3 (repeat x2e 256) [RInt 4; RBytes [x68; x69]; RInt 10] [])
      = (w', Returned tt) /\
    log w' = [] ++ d /\
    filter (on_connection 4) d = [CRecv 4 255 0 2 [x68; x69]; CSend 4 ack_bytes 0 10; CClose 4] /\
    filter is_send d = [CSend 4 ack_bytes 0 10] /\
    ack_bytes = list_byte_of_string "ACK Server" /\
    length ack_bytes = 10%nat /\
    has_nul ack_bytes = false.
Proof.
  apply (ack_server_exchange 0
           (mk_world 3 (repeat x2e 256) [RInt 4; RBytes [x68; x69]; RInt 10] [])
           4 10 [x68; x69] []).
  - reflexivity.
  - reflexivity.
  - lia.
  - simpl. lia.
Defined.

(** C4: when the receive fails, the handler logs the failure and returns; it
    stores no terminator and sends nothing, and the listener closes the
    connection all the same. *)
Theorem receive_failure_no_response (fuel : nat) (w : world) (c z : Z) (rest : list reply) :
  z < 0 ->
  (replies w = RInt z :: rest ->
   run (2 + fuel) (handle_client c) w =
   (mk_world (server_socket w) (buffer w) rest
      (log w ++ [CRecv c 255 0 z []; CPuts "Erro ao receber dados do cliente"]),
    Returned tt)) /\
  (replies w = RInt c :: RInt z :: rest ->
   0 <= c ->
   run (8 + fuel) accept_once w =
   (mk_world (server_socket w) (buffer w) rest
      (log w ++ [CPuts "Aguardando conexao do cliente...";
                 CAccept (server_socket w) c;
                 CPuts "Cliente conectado";
                 CRecv c 255 0 z [];
                 CPuts "Erro ao receber dados do cliente";
                 CClose c;
                 CPuts "Conexao encerrada"]),
    Returned tt)).
Proof.
  intros Hz. split.
  - intros Hr. unfold run. now rewrite (handle_client_recv_error fuel c w z rest Hr Hz).
  - intros Hr Hc. unfold run. now rewrite (accept_once_recv_error fuel w c z rest Hr Hc Hz).
Qed.

Lemma receive_failure_no_response_witness :
  run 2 (handle_client 4) (mk_world 3 (repeat x2e 256) [RInt (-1)] []) =
  (mk_world 3 (repeat x2e 256) []
     [CRecv 4 255 0 (-1) []; CPuts "Erro ao receber dados do cliente"],
   Returned tt).
Proof.
  apply (proj1 (receive_failure_no_response 0
                  (mk_world 3 (repeat x2e 256) [RInt (-1)] []) 4 (-1) []
                  ltac:(lia))).
  reflexivity.
Defined.

(** C6: a failed accept is followed by one log line and nothing else, neither
    handler nor close, and the loop goes round again. *)
Theorem accept_failure_retries (fuel : nat) (w : world) (z : Z) (rest : list reply) :
  replies w = RInt z :: rest ->
  z < 0 ->
  let w' :=
    mk_world (server_socket w) (buffer w) rest
      (log w ++ [CPuts "Aguardando conexao do cliente...";
                 CAccept (server_socket w) z;
                 CPuts "Erro ao aceitar a conexao"]) in
  run (4 + fuel) accept_once w = (w', Returned tt) /\
  exec (5 + fuel) init_server w = exec fuel init_server w'.
Proof.
  intros Hr Hz w'. split.
  - unfold run. now rewrite (accept_once_accept_error fuel w z rest Hr Hz).
  - unfold init_server. rewrite exec_forever.
    change (5 + fuel)%nat with (4 + S fuel)%nat.
    rewrite (accept_once_accept_error (S fuel) w z rest Hr Hz). reflexivity.
Qed.

Lemma accept_failure_retries_witness :
  run 4 accept_once (mk_world 3 (repeat x2e 256) [RInt (-1); RInt (-1)] []) =
  (mk_world 3 (repeat x2e 256) [RInt (-1)]
     [CPuts "Aguardando conexao do cliente..."; CAccept 3 (-1);
      CPuts "Erro ao aceitar a conexao"],
   Returned tt).
Proof.
  apply (proj1 (accept_failure_retries 0
                  (mk_world 3 (repeat x2e 256) [RInt (-1); RInt (-1)] []) (-1) [RInt (-1)]
                  eq_refl ltac:(lia))).
Defined.

(** ** The receive and the terminator *)

(** The first three steps of the handler on a successful receive: the
    receive, the terminator, the log line; the send and its report remain. *)
Lemma handle_client_received (fuel : nat) (c : Z) (w : world) (m : list byte)
  (rest : list reply) :
  length (buffer w) = 256%nat ->
  replies w = RBytes m :: rest ->
  exec (3 + fuel) (handle_client c) w =
  exec fuel
    (bytes_sent <- ITree.trigger (Send c response (strlen response) 0) ;;
     if bytes_sent <? 0
     then ITree.trigger (Puts "Erro ao enviar dados para o cliente")
     else ITree.trigger (Puts "Resposta enviada"))
    (mk_world (server_socket w)
       (firstn 255 m ++ x00 :: skipn (S (length (firstn 255 m))) (buffer w))
       rest
       (log w ++
        [CRecv c 255 0 (Z.of_nat (length (firstn 255 m))) (firstn 255 m);
         CStore (Z.of_nat (length (firstn 255 m))) x00;
         CPrintf (list_byte_of_string "Cliente: " ++ c_string (firstn 255 m)
                    ++ list_byte_of_string newline)])).
Proof.
  intros Hlen Hr. unfold handle_client. cbn [Nat.add].
  pose proof (length_firstn_le 255 m) as Hd.
  rewrite exec_call. cbn [kernel]. rewrite (recv_call_bytes c w m _ Hlen Hr).
  destruct (Z.ltb_spec (Z.of_nat (length (firstn 255 m))) 0) as [Hbad|_]; [lia|].
  rewrite exec_call. cbn [kernel].
  erewrite store_call_terminator; [|reflexivity|lia].
  cbn [server_socket replies log buffer].
  rewrite exec_call. cbn [kernel].
  erewrite printf_call_terminated; [|reflexivity].
  world_simpl. reflexivity.
Qed.

Lemma terminated_buffer_shape (d tail : list byte) :
  firstn (length d) (d ++ x00 :: tail) = d /\
  nth_error (d ++ x00 :: tail) (length d) = Some x00.
Proof.
  split.
  - rewrite firstn_app, firstn_all, Nat.sub_diag, firstn_O, app_nil_r. reflexivity.
  - rewrite nth_error_app2 by lia. rewrite Nat.sub_diag. reflexivity.
Qed.

Lemma terminated_buffer_length (d old : list byte) :
  (length d < length old)%nat ->
  length (d ++ x00 :: skipn (S (length d)) old) = length old.
Proof.
  intros H. rewrite length_app. cbn [length]. rewrite length_skipn. lia.
Qed.

(** C3: the handler makes one receive, asking for 255 = 256 - 1 bytes; when
    it succeeds with [n] bytes, the terminator goes to index [n], right after
    them, so that of a message longer than 255 bytes the handler holds
    exactly the first 255. *)
Theorem handle_client_receive_truncates (fuel : nat) (w : world) (c : Z)
  (m : list byte) (rest : list reply) :
  length (buffer w) = 256%nat ->
  replies w = RBytes m :: rest ->
  let d := firstn (Z.to_nat (sizeof_buffer - 1)) m in
  let n := Z.of_nat (length d) in
  exists w' o tail,
    run (3 + fuel) (handle_client c) w = (w', o) /\
    log w' = log w ++ CRecv c (sizeof_buffer - 1) 0 n d :: CStore n x00 :: tail /\
    filter is_recv tail = [] /\
    filter is_store tail = [] /\
    length (buffer w') = 256%nat /\
    firstn (length d) (buffer w') = d /\
    nth_error (buffer w') (length d) = Some x00 /\
    n <= 255 /\
    ((255 < length m)%nat ->
     firstn 255 (buffer w') = firstn 255 m /\
     nth_error (buffer w') 255 = Some x00).
Proof.
  intros Hlen Hr d n.
  change (Z.to_nat (sizeof_buffer - 1)) with 255%nat in d.
  change (sizeof_buffer - 1) with 255.
  pose proof (length_firstn_le 255 m) as Hd. fold d in Hd.
  assert (Hshape : forall w' : world,
             buffer w' = d ++ x00 :: skipn (S (length d)) (buffer w) ->
             length (buffer w') = 256%nat /\
             firstn (length d) (buffer w') = d /\
             nth_error (buffer w') (length d) = Some x00 /\
             n <= 255 /\
             ((255 < length m)%nat ->
              firstn 255 (buffer w') = firstn 255 m /\
              nth_error (buffer w') 255 = Some x00)).
  { intros w' Hb. rewrite Hb.
    destruct (terminated_buffer_shape d (skipn (S (length d)) (buffer w))) as [H1 H2].
    repeat split.
    - rewrite terminated_buffer_length; lia.
    - exact H1.
    - exact H2.
    - unfold n. lia.
    - assert (Hl : length d = 255%nat) by (unfold d; rewrite length_firstn; lia).
      rewrite <- Hl at 1. exact H1.
    - assert (Hl : length d = 255%nat) by (unfold d; rewrite length_firstn; lia).
      rewrite <- Hl. exact H2. }
  unfold run. rewrite (handle_client_received fuel c w m rest Hlen Hr). fold d. fold n.
  destruct fuel as [|fuel].
  { rewrite exec_call_O. do 3 eexists. cbn [fst log].
    split; [reflexivity|]. split; [reflexivity|].
    split; [reflexivity|]. split; [reflexivity|].
    apply Hshape. reflexivity. }
  rewrite exec_call. cbn [kernel]. rewrite send_call_response.
  unfold int_call. cbn [replies].
  destruct rest as [|[s|m'] rest].
  - do 3 eexists. cbn [fst log].
    split; [reflexivity|]. split; [reflexivity|].
    split; [reflexivity|]. split; [reflexivity|].
    apply Hshape. reflexivity.
  - world_simpl.
    assert (Hlast : forall msg : string,
      exists w' o tail,
        fst (exec fuel (ITree.trigger (Puts msg))
               (mk_world (server_socket w) (d ++ x00 :: skipn (S (length d)) (buffer w)) rest
                  (log w ++
                   [CRecv c 255 0 n d; CStore n x00;
                    CPrintf (list_byte_of_string "Cliente: " ++ c_string d
                               ++ list_byte_of_string newline);
                    CSend c (list_byte_of_string "ACK Server") 0 s]))) = (w', o) /\
        log w' = log w ++ CRecv c 255 0 n d :: CStore n x00 :: tail /\
        filter is_recv tail = [] /\
        filter is_store tail = [] /\
        buffer w' = d ++ x00 :: skipn (S (length d)) (buffer w)).
    { intros msg. destruct fuel as [|fuel].
      - rewrite exec_last_O. do 3 eexists. cbn [fst log buffer].
        split; [reflexivity|]. split; [reflexivity|].
        split; [reflexivity|]. split; reflexivity.
      - rewrite exec_last. world_simpl. do 3 eexists. cbn [fst log buffer].
        split; [reflexivity|]. split; [reflexivity|].
        split; [reflexivity|]. split; reflexivity. }
    destruct (s <? 0);
      [destruct (Hlast "Erro ao enviar dados para o cliente"%string)
         as (w' & o & tail & H1 & H2 & H3 & H4 & H5)
      |destruct (Hlast "Resposta enviada"%string)
         as (w' & o & tail & H1 & H2 & H3 & H4 & H5)];
      exists w', o, tail; (split; [exact H1|]); (split; [exact H2|]);
      (split; [exact H3|]); (split; [exact H4|]); apply Hshape; exact H5.
  - do 3 eexists. cbn [fst log].
    split; [reflexivity|]. split; [reflexivity|].
    split; [reflexivity|]. split; [reflexivity|].
    apply Hshape. reflexivity.
Qed.

Lemma handle_client_receive_truncates_witness :
  let w := mk_world 3 (repeat x2e 256) [RBytes (repeat x61 300)] [] in
  let d := firstn (Z.to_nat (sizeof_buffer - 1)) (repeat x61 300) in
  let n := Z.of_nat (length d) in
  exists w' o tail,
    run 3 (handle_client 4) w = (w', o) /\
    log w' = log w ++ CRecv 4 (sizeof_buffer - 1) 0 n d :: CStore n x00 :: tail /\
    filter is_recv tail = [] /\
    filter is_store tail = [] /\
    length (buffer w') = 256%nat /\
    firstn (length d) (buffer w') = d /\
    nth_error (buffer w') (length d) = Some x00 /\
    n <= 255 /\
    ((255 < length (repeat x61 300))%nat ->
     firstn 255 (buffer w') = firstn 255 (repeat x61 300) /\
     nth_error (buffer w') 255 = Some x00).
Proof.
  apply (handle_client_receive_truncates 0
           (mk_world 3 (repeat x2e 256) [RBytes (repeat x61 300)] [])
           4 (repeat x61 300) []).
  - reflexivity.
  - reflexivity.
Defined.

(** ** Startup *)

(** The control flow of [start_server] against arbitrary answers: the calls
    are socket, bind and listen in this order, the first step that fails is
    reported, the result is then -1 and no later step is made; when none
    fails the result is 0. *)
Lemma start_server_steps (fuel : nat) (w : world) (fd b l : Z) (rest : list reply) :
  replies w = RInt fd :: RInt b :: RInt l :: rest ->
  exists w',
    run (8 + fuel) start_server w =
      (w', Returned (match startup_failure fd b l with Some _ => -1 | None => 0 end)) /\
    log w' = log w ++
      match startup_failure fd b l with
      | Some step => firstn (S step) (startup_steps fd b l) ++ [CPuts (startup_report step)]
      | None => startup_steps fd b l ++ [CPuts "Servidor iniciado e escutando..."]
      end /\
    replies w' =
      match startup_failure fd b l with
      | Some step => skipn (S step) (replies w)
      | None => rest
      end /\
    server_socket w' = fd /\
    sun_family server_address = AF_UNIX /\
    sun_path server_address = "/tmp/arq_socket"%string.
Proof.
  intros Hr. unfold run, start_server, startup_failure, startup_steps.
  cbn [Nat.add]. rewrite Hr.
  destruct (fd <? 0) eqn:Hfd;
    [|destruct (b =? 0) eqn:Hb; [destruct (l <? 0) eqn:Hl|]];
    eexists; cbn [negb];
    call_step; rewrite Hr; do 2 call_step; rewrite Hfd;
    try (do 2 call_step; rewrite Hb; cbn [negb]);
    try (do 2 call_step; rewrite Hl);
    call_step; rewrite exec_ret;
    cbn [fst log replies server_socket skipn firstn app];
    repeat split; reflexivity.
Qed.

(** The kernel's answer to the [bind] that [start_server] issues is a refusal,
    whatever the file system holds. *)
Lemma bind_always_refused (ns : namespace) :
  posix_bind ns server_address bind_addrlen = -1.
Proof. reflexivity. Qed.

(** C2 fails on the code.  When the socket path is neither in use nor out of
    reach, a [bind] with the length of the address would succeed; yet
    [start_server] passes the value of [sizeof(server_address) < 0], that is
    0, as the length, the kernel refuses it, and startup stops with the bind
    error without reaching [listen]. *)
Theorem start_server_bind_length_defect (fuel : nat) (ns : namespace) (w : world)
  (fd : Z) (rest : list reply) :
  path_in_use ns (sun_path server_address) = false ->
  path_inaccessible ns (sun_path server_address) = false ->
  0 <= fd ->
  replies w = RInt fd :: RInt (posix_bind ns server_address bind_addrlen) :: rest ->
  posix_bind ns server_address sizeof_sockaddr_un = 0 /\
  run (6 + fuel) start_server w =
    (mk_world fd (buffer w) rest
       (log w ++
        [CSocket AF_UNIX SOCK_STREAM 0 fd;
         CBind fd server_address 0 (-1);
         CPuts "Erro ao vincular o server_socket"]),
     Returned (-1)) /\
  filter is_listen
    [CSocket AF_UNIX SOCK_STREAM 0 fd;
     CBind fd server_address 0 (-1);
     CPuts "Erro ao vincular o server_socket"] = [].
Proof.
  intros Hfree Hreach Hfd Hr. split; [|split; [|reflexivity]].
  - unfold posix_bind. rewrite Hfree, Hreach. reflexivity.
  - rewrite bind_always_refused in Hr.
    unfold run, start_server. cbn [Nat.add].
    call_step. rewrite Hr. do 2 call_step.
    destruct (Z.ltb_spec fd 0) as [Hbad|_]; [lia|].
    do 2 call_step. change (negb (-1 =? 0)) with true. cbn iota.
    call_step. rewrite exec_ret. reflexivity.
Qed.

Lemma start_server_bind_length_defect_witness :
  let ns := mk_namespace [] [] in
  let w := mk_world 0 (repeat x2e 256)
             [RInt 3; RInt (posix_bind ns server_address bind_addrlen); RInt 0] [] in
  posix_bind ns server_address sizeof_sockaddr_un = 0 /\
  run 6 start_server w =
    (mk_world 3 (repeat x2e 256) [RInt 0]
       [CSocket AF_UNIX SOCK_STREAM 0 3;
        CBind 3 server_address 0 (-1);
        CPuts "Erro ao vincular o server_socket"],
     Returned (-1)) /\
  filter is_listen
    [CSocket AF_UNIX SOCK_STREAM 0 3;
     CBind 3 server_address 0 (-1);
     CPuts "Erro ao vincular o server_socket"] = [].
Proof.
  apply (start_server_bind_length_defect 0 (mk_namespace [] [])
           (mk_world 0 (repeat x2e 256)
              [RInt 3; RInt (posix_bind (mk_namespace [] []) server_address bind_addrlen);
               RInt 0] [])
           3 [RInt 0]).
  - reflexivity.
  - reflexivity.
  - lia.
  - reflexivity.
Defined.

(** C7 fails on the code, by the slip of C2.  In an environment in which
    every step of startup would succeed (a valid descriptor, a free and
    accessible path, a [listen] that answers 0 or more), the claim has
    [start_server] bind the socket to "/tmp/arq_socket", put it in listening
    state and return 0.  The [bind] that the source issues carries the length
    0, the kernel refuses it, and startup ends at its second step: the result
    is -1, [listen] is never called and its answer is left unused. *)
Theorem start_server_stops_at_bind (fuel : nat) (ns : namespace) (w : world)
  (fd l : Z) (rest : list reply) :
  path_in_use ns (sun_path server_address) = false ->
  path_inaccessible ns (sun_path server_address) = false ->
  0 <= fd ->
  0 <= l ->
  replies w = RInt fd :: RInt (posix_bind ns server_address bind_addrlen) :: RInt l :: rest ->
  startup_failure fd (posix_bind ns server_address sizeof_sockaddr_un) l = None /\
  exists w',
    run (8 + fuel) start_server w = (w', Returned (-1)) /\
    log w' = log w ++
      [CSocket AF_UNIX SOCK_STREAM 0 fd;
       CBind fd server_address 0 (-1);
       CPuts "Erro ao vincular o server_socket"] /\
    filter is_listen (log w') = filter is_listen (log w) /\
    replies w' = RInt l :: rest /\
    server_socket w' = fd.
Proof.
  intros Hfree Hreach Hfd Hl Hr.
  assert (Hfd' : (fd <? 0) = false) by (apply Z.ltb_ge; exact Hfd).
  assert (Hl' : (l <? 0) = false) by (apply Z.ltb_ge; exact Hl).
  split.
  - unfold startup_failure, posix_bind. rewrite Hfree, Hreach, Hfd', Hl'. reflexivity.
  - rewrite bind_always_refused in Hr.
    destruct (start_server_steps fuel w fd (-1) l rest Hr)
      as (w' & Hrun & Hlog & Hrest & Hsock & _).
    unfold startup_failure in Hrun, Hlog, Hrest. rewrite Hfd' in Hrun, Hlog, Hrest.
    cbn in Hrun, Hlog, Hrest. rewrite Hr in Hrest. cbn [skipn] in Hrest.
    exists w'. split; [exact Hrun|]. split; [exact Hlog|].
    split; [|split; assumption].
    rewrite Hlog, filter_app. cbn. apply app_nil_r.
Qed.

Lemma start_server_stops_at_bind_witness :
  let ns := mk_namespace [] [] in
  let w := mk_world 0 (repeat x2e 256)
             [RInt 3; RInt (posix_bind ns server_address bind_addrlen); RInt 0] [] in
  startup_failure 3 (posix_bind ns server_address sizeof_sockaddr_un) 0 = None /\
  exists w',
    run 8 start_server w = (w', Returned (-1)) /\
    log w' = log w ++
      [CSocket AF_UNIX SOCK_STREAM 0 3;
       CBind 3 server_address 0 (-1);
       CPuts "Erro ao vincular o server_socket"] /\
    filter is_listen (log w') = filter is_listen (log w) /\
    replies w' = RInt 0 :: [] /\
    server_socket w' = 3.
Proof.
  apply (start_server_stops_at_bind 0 (mk_namespace [] [])
           (mk_world 0 (repeat x2e 256)
              [RInt 3; RInt (posix_bind (mk_namespace [] []) server_address bind_addrlen);
               RInt 0] [])
           3 0 []).
  - reflexivity.
  - reflexivity.
  - lia.
  - lia.
  - reflexivity.
Defined.

(** ** The handler and the loop against their logs *)

Lemma recv_call_blocks_empty (c : Z) (w : world) :
  replies w = [] -> recv_call c (sizeof_buffer - 1) 0 w = Blocks.
Proof. intros Hr. unfold recv_call. now rewrite Hr. Qed.

Lemma recv_call_blocks_count (c : Z) (w : world) (z : Z) (rest : list reply) :
  replies w = RInt z :: rest -> 0 <= z ->
  recv_call c (sizeof_buffer - 1) 0 w = Blocks.
Proof.
  intros Hr Hz. unfold recv_call. rewrite Hr.
  destruct (Z.ltb_spec z 0) as [Hbad|_]; [lia | reflexivity].
Qed.

(** [handle_client] does what [handled] says. *)
Lemma handle_client_handled (fuel : nat) (c : Z) (w : world) :
  length (buffer w) = 256%nat ->
  exists buf' rest,
    length buf' = 256%nat /\
    (fuel <= rest)%nat /\
    exec (5 + fuel) (handle_client c) w =
    (mk_world (server_socket w) buf' (snd (handled c (replies w)))
       (log w ++ fst (fst (handled c (replies w)))),
     if snd (fst (handled c (replies w))) then Returned tt else Blocked,
     rest).
Proof.
  intros Hlen. destruct w as [ss buf reps lg]. cbn [buffer] in Hlen.
  cbn [server_socket replies log].
  destruct reps as [|[z|m] reps].
  - (* no reply: the receive waits *)
    exists buf. eexists. split; [exact Hlen|]. split.
    2:{ unfold handle_client. cbn [Nat.add]. rewrite exec_call. cbn [kernel].
        rewrite recv_call_blocks_empty by reflexivity.
        cbn [handled fst snd]. rewrite app_nil_r. reflexivity. }
    lia.
  - cbn [handled]. destruct (Z.ltb_spec z 0) as [Hz|Hz].
    + (* the receive fails *)
      exists buf. eexists. split; [exact Hlen|]. split.
      2:{ change (5 + fuel)%nat with (2 + (3 + fuel))%nat.
          rewrite (handle_client_recv_error _ c _ z reps) by (reflexivity || exact Hz).
          cbn [fst snd server_socket buffer log]. reflexivity. }
      lia.
    + (* a count where bytes are due: the receive waits *)
      exists buf. eexists. split; [exact Hlen|]. split.
      2:{ unfold handle_client. cbn [Nat.add]. rewrite exec_call. cbn [kernel].
          rewrite (recv_call_blocks_count c _ z reps) by (reflexivity || exact Hz).
          cbn [fst snd]. rewrite app_nil_r. reflexivity. }
      lia.
  - (* bytes arrive *)
    pose proof (length_firstn_le 255 m) as Hd.
    exists (firstn 255 m ++ x00 :: skipn (S (length (firstn 255 m))) buf).
    change (5 + fuel)%nat with (3 + (2 + fuel))%nat.
    rewrite (handle_client_received _ c _ m reps) by (exact Hlen || reflexivity).
    cbn [server_socket buffer log Nat.add handled].
    rewrite exec_call. cbn [kernel]. rewrite send_call_response.
    unfold int_call. cbn [replies].
    destruct reps as [|[s|m'] reps]; cbn [fst snd].
    + (* no reply: the send waits *)
      exists (S fuel). split; [rewrite terminated_buffer_length; lia|].
      split; [lia | reflexivity].
    + (* the send is answered *)
      exists fuel. split; [rewrite terminated_buffer_length; lia|].
      split; [lia|]. world_simpl.
      destruct (s <? 0); rewrite exec_last; world_simpl; reflexivity.
    + (* bytes where a count is due: the send waits *)
      exists (S fuel). split; [rewrite terminated_buffer_length; lia|].
      split; [lia | reflexivity].
Qed.

Lemma accept_blocks (fuel : nat) (w : world) :
  match replies w with RInt _ :: _ => False | _ => True end ->
  exec (3 + fuel) accept_once w =
  (mk_world (server_socket w) (buffer w) (replies w)
     (log w ++ [CPuts "Aguardando conexao do cliente..."]),
   Blocked, fuel).
Proof.
  intros Hr. unfold accept_once. cbn [Nat.add].
  do 3 call_step.
  destruct (replies w) as [|[z|m] reps]; [reflexivity | contradiction | reflexivity].
Qed.

(** One turn of the loop does what [turn] says. *)
Lemma accept_once_turn (fuel : nat) (w : world) :
  length (buffer w) = 256%nat ->
  exists buf' rest,
    length buf' = 256%nat /\
    (fuel <= rest)%nat /\
    exec (11 + fuel) accept_once w =
    (mk_world (server_socket w) buf' (snd (turn (server_socket w) (replies w)))
       (log w ++ fst (fst (turn (server_socket w) (replies w)))),
     if snd (fst (turn (server_socket w) (replies w))) then Returned tt else Blocked,
     rest).
Proof.
  intros Hlen.
  destruct (replies w) as [|[c|m] reps] eqn:Hr.
  - exists (buffer w), (8 + fuel)%nat. split; [exact Hlen|]. split; [lia|].
    change (11 + fuel)%nat with (3 + (8 + fuel))%nat.
    rewrite accept_blocks by now rewrite Hr. rewrite Hr. reflexivity.
  - cbn [turn]. destruct (Z.ltb_spec c 0) as [Hc|Hc].
    + exists (buffer w), (7 + fuel)%nat. split; [exact Hlen|]. split; [lia|].
      change (11 + fuel)%nat with (4 + (7 + fuel))%nat.
      rewrite (accept_once_accept_error _ w c reps Hr Hc). reflexivity.
    + change (11 + fuel)%nat with (4 + (5 + (2 + fuel)))%nat.
      rewrite (accept_once_accepted _ w c reps Hr Hc).
      rewrite exec_bind.
      destruct (handle_client_handled (2 + fuel) c
                  (mk_world (server_socket w) (buffer w) reps
                     (log w ++ [CPuts "Aguardando conexao do cliente...";
                                CAccept (server_socket w) c;
                                CPuts "Cliente conectado"]))
                  Hlen) as (buf' & rest & Hbuf & Hrest & Hrun).
      rewrite Hrun. cbn [server_socket replies log].
      destruct (handled c reps) as [[d completed] reps'].
      cbn [fst snd]. destruct completed; cbn [fst snd].
      * destruct rest as [|[|rest]]; [lia | lia |].
        exists buf', rest. split; [exact Hbuf|]. split; [lia|].
        do 2 call_step. rewrite <- !app_assoc. reflexivity.
      * exists buf', rest. split; [exact Hbuf|]. split; [lia|].
        rewrite <- !app_assoc. reflexivity.
  - exists (buffer w), (8 + fuel)%nat. split; [exact Hlen|]. split; [lia|].
    change (11 + fuel)%nat with (3 + (8 + fuel))%nat.
    rewrite accept_blocks by now rewrite Hr. rewrite Hr. reflexivity.
Qed.

(** A handler, and a turn, that returns has used up at least one reply. *)
Lemma handled_consumes (c : Z) (reps : list reply) :
  (length (snd (handled c reps)) <= length reps)%nat.
Proof.
  destruct reps as [|[z|m] [|[s|m'] reps]]; cbn [handled];
    try destruct (z <? 0); cbn [snd length]; lia.
Qed.

Lemma turn_consumes (ss : Z) (reps : list reply) :
  snd (fst (turn ss reps)) = true ->
  (length (snd (turn ss reps)) < length reps)%nat.
Proof.
  destruct reps as [|[c|m] reps]; cbn [turn fst snd]; try discriminate.
  destruct (c <? 0); cbn [fst snd length]; [lia|].
  pose proof (handled_consumes c reps) as H.
  destruct (handled c reps) as [[d completed] reps'].
  cbn [snd] in H. destruct completed; cbn [fst snd]; [lia | discriminate].
Qed.

(** The loop does what [serve] says, and ends waiting in a call. *)
Lemma init_server_serves (n : nat) :
  forall (w : world) (fuel : nat),
    (length (replies w) < n)%nat ->
    length (buffer w) = 256%nat ->
    (12 * n <= fuel)%nat ->
    exists buf' reps' rest,
      length buf' = 256%nat /\
      exec fuel init_server w =
      (mk_world (server_socket w) buf' reps'
         (log w ++ serve n (server_socket w) (replies w)),
       Blocked, rest).
Proof.
  induction n as [|n IH]; intros w fuel Hn Hlen Hfuel; [lia|].
  unfold init_server. rewrite exec_forever.
  replace fuel with (11 + (fuel - 11))%nat by lia.
  destruct (accept_once_turn (fuel - 11) w Hlen) as (buf1 & rest1 & Hbuf1 & Hrest1 & Hrun).
  rewrite Hrun. cbn [serve].
  pose proof (turn_consumes (server_socket w) (replies w)) as Hcons.
  destruct (turn (server_socket w) (replies w)) as [[d completed] reps1].
  cbn [fst snd] in *. destruct completed.
  - destruct rest1 as [|rest1]; [lia|].
    fold init_server.
    destruct (IH (mk_world (server_socket w) buf1 reps1 (log w ++ d)) rest1)
      as (buf2 & reps2 & rest2 & Hbuf2 & Hrun2).
    + cbn [replies]. specialize (Hcons eq_refl). lia.
    + exact Hbuf1.
    + lia.
    + rewrite Hrun2. cbn [server_socket replies log].
      exists buf2, reps2, rest2. split; [exact Hbuf2|].
      rewrite <- app_assoc. reflexivity.
  - exists buf1, reps1, rest1. split; [exact Hbuf1 | reflexivity].
Qed.

Lemma init_server_log (w : world) (fuel : nat) :
  length (buffer w) = 256%nat ->
  (enough_fuel w <= fuel)%nat ->
  exists w',
    run fuel init_server w = (w', Blocked) /\
    length (buffer w') = 256%nat /\
    log w' = log w ++ serve (S (length (replies w))) (server_socket w) (replies w).
Proof.
  intros Hlen Hfuel.
  destruct (init_server_serves (S (length (replies w))) w fuel)
    as (buf' & reps' & rest & Hbuf & Hrun); [lia | exact Hlen | exact Hfuel |].
  unfold run. rewrite Hrun. eexists. split; [reflexivity|].
  split; [exact Hbuf | reflexivity].
Qed.

(** ** What the logs of the handler, of a turn and of the loop look like *)

Lemma sessions_app (p : phase) (l1 l2 : list call) :
  sessions p (l1 ++ l2) =
  match sessions p l1 with
  | Some q => sessions q l2
  | None => None
  end.
Proof.
  revert p. induction l1 as [|e l1 IH]; intros p; cbn [app sessions].
  - reflexivity.
  - destruct (transition p e); [apply IH | reflexivity].
Qed.

Lemma handled_sessions (c : Z) (reps : list reply) :
  exists p,
    sessions (Accepted c) (fst (fst (handled c reps))) = Some p /\
    (snd (fst (handled c reps)) = true -> p = Closing c) /\
    (snd (fst (handled c reps)) = false -> p = Accepted c \/ p = Replying c).
Proof.
  pose proof (Z.eqb_refl c) as Hcc.
  destruct reps as [|[z|m] reps]; cbn [handled].
  - exists (Accepted c). cbn. intuition congruence.
  - destruct (z <? 0) eqn:Hz; cbn [fst snd sessions transition].
    + rewrite Hcc, Hz. exists (Closing c). intuition congruence.
    + exists (Accepted c). intuition congruence.
  - pose proof (length_firstn_le 255 m) as Hd.
    destruct (Z.ltb_spec (Z.of_nat (length (firstn 255 m))) 0) as [Hbad|Hn]; [lia|].
    apply Z.ltb_ge in Hn.
    destruct reps as [|[s|m'] reps]; cbn [fst snd sessions transition app];
      rewrite ?Hcc, ?Hn; cbn [sessions transition]; rewrite ?Hcc.
    + exists (Replying c). intuition congruence.
    + exists (Closing c). intuition congruence.
    + exists (Replying c). intuition congruence.
Qed.

Lemma turn_sessions (ss : Z) (reps : list reply) :
  exists p,
    sessions Idle (fst (fst (turn ss reps))) = Some p /\
    (snd (fst (turn ss reps)) = true -> p = Idle) /\
    (forall c, p <> Closing c).
Proof.
  destruct reps as [|[c|m] reps]; cbn [turn].
  - exists Idle. cbn. intuition congruence.
  - destruct (c <? 0) eqn:Hc.
    + cbn [fst snd sessions transition]. rewrite Hc.
      exists Idle. intuition congruence.
    + destruct (handled_sessions c reps) as (p & Hp & Hdone & Hwait).
      destruct (handled c reps) as [[d completed] reps'].
      cbn [fst snd] in *. destruct completed; cbn [fst snd].
      * change (?a :: ?b :: ?x :: d ++ ?l) with ([a; b; x] ++ d ++ l).
        rewrite !sessions_app. cbn [sessions transition]. rewrite Hc.
        cbn [sessions transition]. rewrite ?sessions_app, Hp.
        rewrite (Hdone eq_refl). cbn [sessions transition]. rewrite Z.eqb_refl.
        exists Idle. intuition congruence.
      * change (?a :: ?b :: ?x :: d) with ([a; b; x] ++ d).
        rewrite !sessions_app. cbn [sessions transition]. rewrite Hc.
        cbn [sessions transition]. rewrite ?sessions_app, Hp.
        exists p. split; [reflexivity|]. split; [discriminate|].
        intros c' ->. destruct (Hwait eq_refl); discriminate.
  - exists Idle. cbn. intuition congruence.
Qed.

Lemma serve_sessions (n : nat) :
  forall (ss : Z) (reps : list reply),
    exists p, sessions Idle (serve n ss reps) = Some p /\ (forall c, p <> Closing c).
Proof.
  induction n as [|n IH]; intros ss reps; cbn [serve].
  - exists Idle. split; [reflexivity | discriminate].
  - destruct (turn_sessions ss reps) as (p & Hp & Hdone & Hnot).
    destruct (turn ss reps) as [[d completed] rest].
    cbn [fst snd] in *. destruct completed.
    + rewrite sessions_app, Hp, (Hdone eq_refl). apply IH.
    + exists p. split; assumption.
Qed.

(** Counting the turns. *)
Lemma turns_begun_app (l1 l2 : list call) :
  turns_begun (l1 ++ l2) = (turns_begun l1 + turns_begun l2)%nat.
Proof. unfold turns_begun. now rewrite filter_app, length_app. Qed.

Lemma turns_ended_app (l1 l2 : list call) :
  turns_ended (l1 ++ l2) = (turns_ended l1 + turns_ended l2)%nat.
Proof. unfold turns_ended. now rewrite filter_app, length_app. Qed.

Lemma handled_turns (c : Z) (reps : list reply) :
  turns_begun (fst (fst (handled c reps))) = 0%nat /\
  turns_ended (fst (fst (handled c reps))) = 0%nat.
Proof.
  destruct reps as [|[z|m] [|[s|m'] reps]]; cbn [handled];
    try destruct (z <? 0); try destruct (s <? 0); split; reflexivity.
Qed.

Lemma turn_turns (ss : Z) (reps : list reply) :
  turns_begun (fst (fst (turn ss reps))) = 1%nat /\
  turns_ended (fst (fst (turn ss reps))) =
    (if snd (fst (turn ss reps)) then 1 else 0)%nat.
Proof.
  destruct reps as [|[c|m] reps]; cbn [turn]; try (split; reflexivity).
  destruct (c <? 0); [split; reflexivity|].
  destruct (handled_turns c reps) as [Hb He].
  destruct (handled c reps) as [[d completed] reps'].
  cbn [fst snd] in *. destruct completed; cbn [fst snd].
  - change (?a :: ?b :: ?x :: d ++ ?l) with ([a; b; x] ++ d ++ l).
    rewrite !turns_begun_app, !turns_ended_app, Hb, He. split; reflexivity.
  - change (?a :: ?b :: ?x :: d) with ([a; b; x] ++ d).
    rewrite !turns_begun_app, !turns_ended_app, Hb, He. split; reflexivity.
Qed.

Lemma serve_turns (n : nat) :
  forall (ss : Z) (reps : list reply),
    (length reps < n)%nat ->
    turns_begun (serve n ss reps) = S (turns_ended (serve n ss reps)).
Proof.
  induction n as [|n IH]; intros ss reps Hn; [lia|]. cbn [serve].
  destruct (turn_turns ss reps) as [Hb He].
  pose proof (turn_consumes ss reps) as Hcons.
  destruct (turn ss reps) as [[d completed] rest].
  cbn [fst snd] in *. destruct completed.
  - rewrite turns_begun_app, turns_ended_app, Hb, He.
    rewrite (IH ss rest) by (specialize (Hcons eq_refl); lia). lia.
  - rewrite Hb, He. reflexivity.
Qed.

(** Every send is the acknowledgment. *)
Lemma handled_sends_ack (c : Z) (reps : list reply) :
  Forall sends_ack (fst (fst (handled c reps))).
Proof.
  destruct reps as [|[z|m] [|[s|m'] reps]]; cbn [handled];
    try destruct (z <? 0); cbn [fst app]; repeat constructor.
Qed.

Lemma turn_sends_ack (ss : Z) (reps : list reply) :
  Forall sends_ack (fst (fst (turn ss reps))).
Proof.
  destruct reps as [|[c|m] reps]; cbn [turn]; try (repeat constructor).
  destruct (c <? 0); [repeat constructor|].
  pose proof (handled_sends_ack c reps) as H.
  destruct (handled c reps) as [[d completed] reps'].
  cbn [fst] in H. destruct completed; cbn [fst];
    repeat (apply Forall_cons; [exact I|]); [apply Forall_app; split|]; trivial.
  repeat constructor.
Qed.

Lemma serve_sends_ack (n : nat) :
  forall (ss : Z) (reps : list reply), Forall sends_ack (serve n ss reps).
Proof.
  induction n as [|n IH]; intros ss reps; cbn [serve]; [constructor|].
  pose proof (turn_sends_ack ss reps) as H.
  destruct (turn ss reps) as [[d completed] rest]. cbn [fst] in H.
  destruct completed; [apply Forall_app; split; [exact H | apply IH] | exact H].
Qed.

(** ** The claims about whole runs *)

Lemma handled_in_bounds (c : Z) (reps : list reply) :
  (forall fd len flags n data,
      In (CRecv fd len flags n data) (fst (fst (handled c reps))) ->
      len = sizeof_buffer - 1 /\ n <= len /\
      (0 <= n -> In (CStore n x00) (fst (fst (handled c reps))))) /\
  (forall idx b,
      In (CStore idx b) (fst (fst (handled c reps))) ->
      0 <= idx < sizeof_buffer /\
      exists fd len flags data, In (CRecv fd len flags idx data) (fst (fst (handled c reps)))).
Proof.
  change (sizeof_buffer - 1) with 255. change sizeof_buffer with 256.
  destruct reps as [|[z|m] reps]; cbn [handled].
  - split; intros; contradiction.
  - destruct (Z.ltb_spec z 0) as [Hz|Hz]; cbn [fst In].
    + split.
      * intros fd len flags n data [H|[H|[]]]; inversion H; subst. lia.
      * intros idx b [H|[H|[]]]; inversion H.
    + split; intros; contradiction.
  - pose proof (length_firstn_le 255 m) as Hd.
    remember (firstn 255 m) as d eqn:Ed. clear Ed.
    destruct reps as [|[s|m'] reps]; cbn [fst In app]; split.
    all: try (intros fd len flags n data H;
              repeat (destruct H as [H|H]; [inversion H; subst|]);
              try contradiction; repeat split; try lia; intros _; right; left; reflexivity).
    all: intros idx b H;
         repeat (destruct H as [H|H]; [inversion H; subst|]);
         try contradiction; (split; [lia|]);
         do 4 eexists; left; reflexivity.
Qed.

(** C10: the terminator goes to the index the receive returned, which is at
    most 255 because the receive asked for 255 bytes; the store stays inside
    the 256 bytes of the buffer, and with no amount of fuel does the handler
    leave defined behaviour. *)
Theorem terminator_store_in_bounds (fuel : nat) (w : world) (c : Z) :
  length (buffer w) = 256%nat ->
  (exists w' o d,
      run (5 + fuel) (handle_client c) w = (w', o) /\
      (o = Returned tt \/ o = Blocked) /\
      log w' = log w ++ d /\
      length (buffer w') = 256%nat /\
      (forall fd len flags n data,
          In (CRecv fd len flags n data) d ->
          len = sizeof_buffer - 1 /\ n <= len /\ (0 <= n -> In (CStore n x00) d)) /\
      (forall idx b,
          In (CStore idx b) d ->
          0 <= idx < sizeof_buffer /\
          exists fd len flags data, In (CRecv fd len flags idx data) d)) /\
  (forall any : nat, snd (run any (handle_client c) w) <> Undefined).
Proof.
  intros Hlen. split.
  - destruct (handle_client_handled fuel c w Hlen) as (buf' & rest & Hbuf & _ & Hrun).
    unfold run. rewrite Hrun. do 3 eexists. cbn [fst snd log buffer].
    split; [reflexivity|].
    split; [destruct (snd (fst (handled c (replies w)))); auto|].
    split; [reflexivity|]. split; [exact Hbuf|].
    apply handled_in_bounds.
  - intros any Hund. unfold run in Hund.
    destruct (exec any (handle_client c) w) as [[w' o] rest] eqn:Hany.
    cbn [fst snd] in Hund. subst o.
    pose proof (exec_more_fuel any 5 (handle_client c) w w' Undefined rest Hany
                  ltac:(discriminate)) as Hmore.
    rewrite Nat.add_comm in Hmore.
    destruct (handle_client_handled any c w Hlen) as (buf' & rest' & _ & _ & Hrun).
    rewrite Hrun in Hmore.
    destruct (snd (fst (handled c (replies w)))); discriminate.
Qed.

Lemma terminator_store_in_bounds_witness :
  exists w' o d,
    run 5 (handle_client 4) (mk_world 3 (repeat x2e 256) [RBytes (repeat x61 300); RInt 10] [])
      = (w', o) /\
    (o = Returned tt \/ o = Blocked) /\
    log w' = [] ++ d /\
    length (buffer w') = 256%nat /\
    (forall fd len flags n data,
        In (CRecv fd len flags n data) d ->
        len = sizeof_buffer - 1 /\ n <= len /\ (0 <= n -> In (CStore n x00) d)) /\
    (forall idx b,
        In (CStore idx b) d ->
        0 <= idx < sizeof_buffer /\
        exists fd len flags data, In (CRecv fd len flags idx data) d).
Proof.
  apply (proj1 (terminator_store_in_bounds 0
                  (mk_world 3 (repeat x2e 256) [RBytes (repeat x61 300); RInt 10] []) 4
                  eq_refl)).
Defined.

(** C5: on every accepted connection the calls are one receive, then one
    send if the receive succeeded and none if it failed, then the listener's
    close; in the log of a whole run the connections follow one another in
    this pattern, none is used again after its close, and the server never
    rests between the handler's last call and the close. *)
Theorem one_exchange_per_connection :
  (forall (w : world) (fuel : nat) (c : Z) (rest : list reply) (w' : world),
      length (buffer w) = 256%nat ->
      replies w = RInt c :: rest ->
      0 <= c ->
      run (11 + fuel) accept_once w = (w', Returned tt) ->
      exists d,
        log w' = log w ++ d /\
        ((exists z, z < 0 /\
            filter (on_connection c) d = [CRecv c 255 0 z []; CClose c]) \/
         (exists n data s, 0 <= n /\
            filter (on_connection c) d =
              [CRecv c 255 0 n data; CSend c ack_bytes 0 s; CClose c]))) /\
  (forall (w : world) (fuel : nat),
      length (buffer w) = 256%nat ->
      (enough_fuel w <= fuel)%nat ->
      exists w' d p,
        run fuel init_server w = (w', Blocked) /\
        log w' = log w ++ d /\
        sessions Idle d = Some p /\
        (forall c, p <> Closing c)).
Proof.
  split.
  - intros w fuel c rest w' Hlen Hr Hc Hrun.
    destruct (accept_once_turn fuel w Hlen) as (buf' & left' & _ & _ & Hexec).
    unfold run in Hrun. rewrite Hexec in Hrun. cbn [fst] in Hrun.
    rewrite Hr in Hrun. cbn [turn] in Hrun.
    destruct (Z.ltb_spec c 0) as [Hbad|_]; [lia|].
    pose proof (Z.eqb_refl c) as Hcc.
    destruct rest as [|[z|m] rest]; cbn [handled fst snd] in Hrun.
    + inversion Hrun.
    + destruct (Z.ltb_spec z 0) as [Hz|Hz]; cbn [fst snd app] in Hrun.
      * inversion Hrun; subst w'; clear Hrun. eexists. cbn [log].
        split; [reflexivity|]. left. exists z. split; [exact Hz|].
        cbn [filter on_connection]. rewrite Hcc. reflexivity.
      * inversion Hrun.
    + destruct rest as [|[s|m'] rest]; cbn [fst snd app] in Hrun.
      * inversion Hrun.
      * inversion Hrun; subst w'; clear Hrun. eexists. cbn [log].
        split; [reflexivity|]. right.
        exists (Z.of_nat (length (firstn 255 m))), (firstn 255 m), s.
        split; [lia|].
        cbn [filter on_connection]. rewrite Hcc. reflexivity.
      * inversion Hrun.
  - intros w fuel Hlen Hfuel.
    destruct (init_server_log w fuel Hlen Hfuel) as (w' & Hrun & _ & Hlog).
    destruct (serve_sessions (S (length (replies w))) (server_socket w) (replies w))
      as (p & Hp & Hnot).
    exists w', (serve (S (length (replies w))) (server_socket w) (replies w)), p.
    repeat split; assumption.
Qed.

Lemma one_exchange_per_connection_witness :
  exists w' d p,
    run 48 init_server
      (mk_world 3 (repeat x2e 256) [RInt 4; RBytes [x68; x69]; RInt 10] []) = (w', Blocked) /\
    log w' = [] ++ d /\
    sessions Idle d = Some p /\
    (forall c, p <> Closing c).
Proof.
  apply (proj2 one_exchange_per_connection
           (mk_world 3 (repeat x2e 256) [RInt 4; RBytes [x68; x69]; RInt 10] []) 48%nat).
  - reflexivity.
  - unfold enough_fuel. simpl. lia.
Defined.

Lemma serve_after_exchange (n : nat) (ss c s : Z) (m : list byte) (later : list reply) :
  0 <= c ->
  serve (S n) ss (RInt c :: RBytes m :: RInt s :: later) =
  fst (fst (turn ss [RInt c; RBytes m; RInt s])) ++ serve n ss later.
Proof.
  intros Hc. cbn [serve turn handled].
  destruct (Z.ltb_spec c 0) as [Hbad|_]; [lia | reflexivity].
Qed.

(** C8: what the server logs from now on depends on the listening socket and
    on what the environment will answer, not on what earlier connections left
    behind.  Two runs that differ in the contents of the buffer and in their
    past logs, and agree on the pending replies, log the same calls, and every
    send among them carries the same acknowledgment.  In particular, after a
    first exchange with message [m1] or with message [m2], the server treats
    the connections that follow in the same way. *)
Theorem no_state_across_connections :
  (forall (w1 w2 : world) (fuel1 fuel2 : nat),
      server_socket w1 = server_socket w2 ->
      replies w1 = replies w2 ->
      length (buffer w1) = 256%nat ->
      length (buffer w2) = 256%nat ->
      (enough_fuel w1 <= fuel1)%nat ->
      (enough_fuel w2 <= fuel2)%nat ->
      exists w1' w2' d,
        run fuel1 init_server w1 = (w1', Blocked) /\
        run fuel2 init_server w2 = (w2', Blocked) /\
        log w1' = log w1 ++ d /\
        log w2' = log w2 ++ d /\
        Forall sends_ack d) /\
  (forall (w : world) (c s : Z) (m1 m2 : list byte) (later : list reply) (fuel : nat),
      length (buffer w) = 256%nat ->
      0 <= c ->
      (12 * (4 + length later) <= fuel)%nat ->
      exists w1' w2' d,
        run fuel init_server (set_replies (RInt c :: RBytes m1 :: RInt s :: later) w)
          = (w1', Blocked) /\
        run fuel init_server (set_replies (RInt c :: RBytes m2 :: RInt s :: later) w)
          = (w2', Blocked) /\
        log w1' =
          log w ++ fst (fst (turn (server_socket w) [RInt c; RBytes m1; RInt s])) ++ d /\
        log w2' =
          log w ++ fst (fst (turn (server_socket w) [RInt c; RBytes m2; RInt s])) ++ d /\
        filter is_send (fst (fst (turn (server_socket w) [RInt c; RBytes m1; RInt s]))) =
          [CSend c ack_bytes 0 s] /\
        filter is_send (fst (fst (turn (server_socket w) [RInt c; RBytes m2; RInt s]))) =
          [CSend c ack_bytes 0 s] /\
        Forall sends_ack d).
Proof.
  split.
  - intros w1 w2 fuel1 fuel2 Hss Hr Hlen1 Hlen2 Hfuel1 Hfuel2.
    destruct (init_server_log w1 fuel1 Hlen1 Hfuel1) as (w1' & Hrun1 & _ & Hlog1).
    destruct (init_server_log w2 fuel2 Hlen2 Hfuel2) as (w2' & Hrun2 & _ & Hlog2).
    exists w1', w2', (serve (S (length (replies w1))) (server_socket w1) (replies w1)).
    split; [exact Hrun1|]. split; [exact Hrun2|]. split; [exact Hlog1|].
    split; [rewrite Hss, Hr; exact Hlog2 | apply serve_sends_ack].
  - intros w c s m1 m2 later fuel Hlen Hc Hfuel.
    destruct (init_server_log
                (set_replies (RInt c :: RBytes m1 :: RInt s :: later) w) fuel Hlen)
      as (w1' & Hrun1 & _ & Hlog1);
      [unfold enough_fuel; cbn [replies set_replies length]; lia|].
    destruct (init_server_log
                (set_replies (RInt c :: RBytes m2 :: RInt s :: later) w) fuel Hlen)
      as (w2' & Hrun2 & _ & Hlog2);
      [unfold enough_fuel; cbn [replies set_replies length]; lia|].
    cbn [set_replies replies server_socket log length] in Hlog1, Hlog2.
    rewrite serve_after_exchange in Hlog1, Hlog2 by exact Hc.
    exists w1', w2', (serve (S (S (S (length later)))) (server_socket w) later).
    split; [exact Hrun1|]. split; [exact Hrun2|].
    split; [exact Hlog1|]. split; [exact Hlog2|].
    cbn [turn handled]. destruct (Z.ltb_spec c 0) as [Hbad|_]; [lia|].
    split; [reflexivity|]. split; [reflexivity|]. apply serve_sends_ack.
Qed.

Lemma no_state_across_connections_witness :
  exists w1' w2' d,
    run 48 init_server
      (mk_world 3 (repeat x2e 256) [RInt 4; RBytes [x68; x69]; RInt 10] []) = (w1', Blocked) /\
    run 48 init_server
      (mk_world 3 ([x73; x65; x63; x72; x65; x74; x00] ++ repeat x41 249)
         [RInt 4; RBytes [x68; x69]; RInt 10]
         [CPuts "Conexao encerrada"]) = (w2', Blocked) /\
    log w1' = [] ++ d /\
    log w2' = [CPuts "Conexao encerrada"] ++ d /\
    Forall sends_ack d.
Proof.
  apply (proj1 no_state_across_connections
           (mk_world 3 (repeat x2e 256) [RInt 4; RBytes [x68; x69]; RInt 10] [])
           (mk_world 3 ([x73; x65; x63; x72; x65; x74; x00] ++ repeat x41 249)
              [RInt 4; RBytes [x68; x69]; RInt 10]
              [CPuts "Conexao encerrada"])
           48%nat 48%nat).
  - reflexivity.
  - reflexivity.
  - reflexivity.
  - reflexivity.
  - unfold enough_fuel. simpl. lia.
  - unfold enough_fuel. simpl. lia.
Defined.

(** The accept loop as long as no signal is delivered.  No run of it
    returns; a turn that returns, whichever way it went, is followed by the
    loop again; a run stops only inside a call, waiting for the environment,
    or for want of fuel; and against any script of replies it stops inside a
    call having begun one turn more than it has ended. *)
Lemma init_server_unsignalled :
  (forall (fuel : nat) (w : world) (r : void), snd (run fuel init_server w) <> Returned r) /\
  (forall (fuel : nat) (w w1 : world) (rest : nat),
      exec fuel accept_once w = (w1, Returned tt, S rest) ->
      exec fuel init_server w = exec rest init_server w1) /\
  (forall (fuel : nat) (w : world),
      length (buffer w) = 256%nat ->
      snd (run fuel init_server w) = Blocked \/ snd (run fuel init_server w) = OutOfFuel) /\
  (forall (fuel : nat) (w : world),
      length (buffer w) = 256%nat ->
      (enough_fuel w <= fuel)%nat ->
      exists w' d,
        run fuel init_server w = (w', Blocked) /\
        log w' = log w ++ d /\
        turns_begun d = S (turns_ended d)).
Proof.
  split; [|split; [|split]].
  - intros fuel w r. destruct r.
  - intros fuel w w1 rest Hturn.
    unfold init_server. rewrite exec_forever, Hturn. reflexivity.
  - intros fuel w Hlen. unfold run.
    destruct (exec fuel init_server w) as [[w' o] rest] eqn:Hrun. cbn [fst snd].
    destruct o as [r| | |]; [destruct r | now left | | now right].
    pose proof (exec_more_fuel fuel (enough_fuel w) init_server w w' Undefined rest Hrun
                  ltac:(discriminate)) as Hmore.
    destruct (init_server_log w (fuel + enough_fuel w) Hlen ltac:(lia))
      as (w2 & Hrun2 & _).
    unfold run in Hrun2. rewrite Hmore in Hrun2. discriminate.
  - intros fuel w Hlen Hfuel.
    destruct (init_server_log w fuel Hlen Hfuel) as (w' & Hrun & _ & Hlog).
    exists w', (serve (S (length (replies w))) (server_socket w) (replies w)).
    split; [exact Hrun|]. split; [exact Hlog|].
    apply serve_turns. lia.
Qed.

(** ** Startup against every script *)

(** [start_server] does what [started] says. *)
Lemma start_server_started (fuel : nat) (w : world) :
  exists rest,
    (fuel <= rest)%nat /\
    exec (8 + fuel) start_server w =
    (mk_world (started_socket (server_socket w) (replies w)) (buffer w)
       (snd (started (replies w)))
       (log w ++ fst (fst (started (replies w)))),
     match snd (fst (started (replies w))) with
     | Some r => Returned r
     | None => Blocked
     end,
     rest).
Proof.
  destruct w as [ss buf reps lg]. cbn [server_socket buffer replies log].
  unfold start_server. cbn [Nat.add].
  destruct reps as [|[fd|m] reps].
  - exists (7 + fuel)%nat. split; [lia|].
    call_step. cbn [started started_socket fst snd]. rewrite app_nil_r. reflexivity.
  - cbn [started started_socket].
    destruct (fd <? 0) eqn:Hfd.
    + exists (4 + fuel)%nat. split; [lia|].
      do 3 call_step. rewrite Hfd. call_step. rewrite exec_ret. reflexivity.
    + destruct reps as [|[b|m] reps].
      * exists (3 + fuel)%nat. split; [lia|].
        do 3 call_step. rewrite Hfd. do 2 call_step. reflexivity.
      * destruct (b =? 0) eqn:Hb; cbn [negb].
        -- destruct reps as [|[l|m] reps].
           ++ exists (1 + fuel)%nat. split; [lia|].
              do 3 call_step. rewrite Hfd. do 2 call_step. rewrite Hb. cbn [negb].
              do 2 call_step. reflexivity.
           ++ destruct (l <? 0) eqn:Hl.
              ** exists fuel. split; [lia|].
                 do 3 call_step. rewrite Hfd. do 2 call_step. rewrite Hb. cbn [negb].
                 do 2 call_step. rewrite Hl. call_step. rewrite exec_ret. reflexivity.
              ** exists fuel. split; [lia|].
                 do 3 call_step. rewrite Hfd. do 2 call_step. rewrite Hb. cbn [negb].
                 do 2 call_step. rewrite Hl. call_step. rewrite exec_ret. reflexivity.
           ++ exists (1 + fuel)%nat. split; [lia|].
              do 3 call_step. rewrite Hfd. do 2 call_step. rewrite Hb. cbn [negb].
              do 2 call_step. reflexivity.
        -- exists (2 + fuel)%nat. split; [lia|].
           do 3 call_step. rewrite Hfd. do 2 call_step. rewrite Hb. cbn [negb].
           call_step. rewrite exec_ret. reflexivity.
      * exists (3 + fuel)%nat. split; [lia|].
        do 3 call_step. rewrite Hfd. do 2 call_step. reflexivity.
  - exists (7 + fuel)%nat. split; [lia|].
    call_step. cbn [started started_socket fst snd]. rewrite app_nil_r. reflexivity.
Qed.

Lemma started_calls (reps : list reply) :
  forallb startup_call (fst (fst (started reps))) = true.
Proof.
  destruct reps as [|[fd|m] [|[b|m'] [|[l|m''] reps]]]; cbn [started];
    try destruct (fd <? 0); try destruct (b =? 0); try destruct (l <? 0);
    reflexivity.
Qed.

Lemma started_result (reps : list reply) (r : Z) :
  snd (fst (started reps)) = Some r -> r = 0 \/ r = -1.
Proof.
  destruct reps as [|[fd|m] [|[b|m'] [|[l|m''] reps]]]; cbn [started];
    try destruct (fd <? 0); try destruct (b =? 0); try destruct (l <? 0);
    cbn [fst snd negb]; intros H; inversion H; auto.
Qed.

Lemma started_no_close (reps : list reply) :
  filter is_close (fst (fst (started reps))) = [].
Proof.
  destruct reps as [|[fd|m] [|[b|m'] [|[l|m''] reps]]]; cbn [started];
    try destruct (fd <? 0); try destruct (b =? 0); try destruct (l <? 0);
    reflexivity.
Qed.

(** X1: [start_server] never closes the descriptor it obtained.  Once
    [socket] has returned a descriptor, whatever the later calls answer, the
    run makes only startup calls (no [close]), the global [server_socket]
    holds the descriptor, and the result, if any, is 0 or -1: after a failed
    [bind] or [listen] the socket stays open. *)
Theorem start_server_leaves_socket_open (fuel : nat) (w : world) (fd : Z)
  (rest : list reply) :
  replies w = RInt fd :: rest ->
  0 <= fd ->
  exists w' o d,
    run (8 + fuel) start_server w = (w', o) /\
    log w' = log w ++ d /\
    server_socket w' = fd /\
    buffer w' = buffer w /\
    forallb startup_call d = true /\
    filter is_close d = [] /\
    (o = Blocked \/ o = Returned 0 \/ o = Returned (-1)).
Proof.
  intros Hr Hfd.
  destruct (start_server_started fuel w) as (left' & _ & Hrun).
  unfold run. rewrite Hrun. do 3 eexists. cbn [fst snd log server_socket buffer].
  split; [reflexivity|]. split; [reflexivity|].
  split; [rewrite Hr; reflexivity|]. split; [reflexivity|].
  split; [apply started_calls|]. split; [apply started_no_close|].
  pose proof (started_result (replies w)) as Hres.
  destruct (snd (fst (started (replies w)))) as [r|]; [|now left].
  right. destruct (Hres r eq_refl) as [-> | ->]; auto.
Qed.

Lemma start_server_leaves_socket_open_witness :
  exists w' o d,
    run 8 start_server (mk_world 0 (repeat x2e 256) [RInt 3; RInt 0; RInt (-1)] []) = (w', o) /\
    log w' = [] ++ d /\
    server_socket w' = 3 /\
    buffer w' = repeat x2e 256 /\
    forallb startup_call d = true /\
    filter is_close d = [] /\
    (o = Blocked \/ o = Returned 0 \/ o = Returned (-1)).
Proof.
  apply (start_server_leaves_socket_open 0
           (mk_world 0 (repeat x2e 256) [RInt 3; RInt 0; RInt (-1)] []) 3
           [RInt 0; RInt (-1)]).
  - reflexivity.
  - lia.
Defined.

Lemma started_conforming (ns : namespace) (reps : list reply) :
  Forall (bind_conforms ns) (fst (fst (started reps))) ->
  snd (fst (started reps)) <> Some 0 /\
  filter is_listen (fst (fst (started reps))) = [].
Proof.
  destruct reps as [|[fd|m] [|[b|m'] reps]]; cbn [started];
    try (destruct (fd <? 0)); cbn [fst snd];
    try (intros _; split; [discriminate | reflexivity]).
  destruct (b =? 0) eqn:Hb; cbn [negb].
  - intros HF.
    assert (Hbind : bind_conforms ns (CBind fd server_address bind_addrlen b)).
    { destruct reps as [|[l|m''] reps]; try destruct (l <? 0); cbn [fst] in HF;
        inversion HF as [|? ? _ HF']; inversion HF' as [|? ? Hb' _]; exact Hb'. }
    cbn [bind_conforms] in Hbind. rewrite bind_always_refused in Hbind.
    subst b. discriminate Hb.
  - intros _. split; [discriminate | reflexivity].
Qed.

(** X2: against a kernel whose [bind] answers as bind(2) does, startup cannot
    succeed: whatever the file system holds and whatever the other calls
    answer, [start_server] does not return 0 and never calls [listen]. *)
Theorem start_server_cannot_succeed (ns : namespace) (fuel : nat) (w : world)
  (d : list call) :
  log (fst (run (8 + fuel) start_server w)) = log w ++ d ->
  Forall (bind_conforms ns) d ->
  snd (run (8 + fuel) start_server w) <> Returned 0 /\
  filter is_listen d = [].
Proof.
  intros Hlog Hconf.
  destruct (start_server_started fuel w) as (left' & _ & Hrun).
  unfold run in *. rewrite Hrun in *. cbn [fst snd log] in *.
  apply app_inv_head in Hlog. subst d.
  destruct (started_conforming ns (replies w) Hconf) as [Hres Hlisten].
  split; [|exact Hlisten].
  destruct (snd (fst (started (replies w)))) as [r|]; [|discriminate].
  intros H. inversion H; subst. now apply Hres.
Qed.

Lemma start_server_cannot_succeed_witness :
  let w := mk_world 0 (repeat x2e 256) [RInt 3; RInt (-1); RInt 0] [] in
  let d := [CSocket AF_UNIX SOCK_STREAM 0 3;
            CBind 3 server_address 0 (-1);
            CPuts "Erro ao vincular o server_socket"] in
  snd (run 8 start_server w) <> Returned 0 /\
  filter is_listen d = [].
Proof.
  apply (start_server_cannot_succeed (mk_namespace [] []) 0
           (mk_world 0 (repeat x2e 256) [RInt 3; RInt (-1); RInt 0] [])).
  - reflexivity.
  - repeat constructor.
Defined.

(** ** Failures in the loop *)

(** X3: an accept that keeps failing is retried at once, every time: after
    [n] failures in a row the log holds [n] times the waiting line, the
    [accept] on the listening socket and the error line, nothing else, and
    the loop goes on from there. *)
Theorem accept_failures_all_retried (zs : list Z) :
  forall (fuel : nat) (w : world) (rest : list reply),
    replies w = map RInt zs ++ rest ->
    Forall (fun z => z < 0) zs ->
    exec (5 * length zs + fuel) init_server w =
    exec fuel init_server
      (mk_world (server_socket w) (buffer w) rest
         (log w ++ flat_map (failed_accept (server_socket w)) zs)).
Proof.
  induction zs as [|z zs IH]; intros fuel w rest Hr Hneg.
  - cbn [length Nat.mul Nat.add flat_map]. rewrite app_nil_r.
    destruct w as [ss buf reps lg]. cbn [map app] in Hr. cbn in Hr. subst reps.
    reflexivity.
  - inversion Hneg as [|? ? Hz Hneg']; subst.
    cbn [map app] in Hr.
    replace (5 * length (z :: zs) + fuel)%nat
      with (4 + S (5 * length zs + fuel))%nat by (cbn [length]; lia).
    unfold init_server. rewrite exec_forever.
    rewrite (accept_once_accept_error _ w z (map RInt zs ++ rest) Hr Hz).
    fold init_server.
    rewrite (IH fuel _ rest) by (reflexivity || exact Hneg').
    cbn [server_socket buffer log flat_map]. unfold failed_accept at 3.
    rewrite <- app_assoc. reflexivity.
Qed.

Lemma accept_failures_all_retried_witness :
  exec 16 init_server (mk_world 3 (repeat x2e 256) [RInt (-1); RInt (-1); RInt (-1)] []) =
  exec 1 init_server
    (mk_world 3 (repeat x2e 256) []
       ([] ++ flat_map (failed_accept 3) [-1; -1; -1])).
Proof.
  apply (accept_failures_all_retried [-1; -1; -1] 1
           (mk_world 3 (repeat x2e 256) [RInt (-1); RInt (-1); RInt (-1)] []) []).
  - reflexivity.
  - repeat constructor.
Defined.

(** X4: when the [send] fails the handler reports it and gives the
    connection up: one [send] and no second try, the line "Erro ao enviar
    dados para o cliente" in place of "Resposta enviada", then the listener's
    close; the loop goes on with the next turn. *)
Theorem send_failure_abandons_connection (fuel : nat) (w : world) (c s : Z)
  (m : list byte) (rest : list reply) :
  length (buffer w) = 256%nat ->
  replies w = RInt c :: RBytes m :: RInt s :: rest ->
  0 <= c ->
  s < 0 ->
  exists w' d,
    run (11 + fuel) accept_once w = (w', Returned tt) /\
    log w' = log w ++ d /\
    replies w' = rest /\
    filter is_send d = [CSend c ack_bytes 0 s] /\
    filter (is_puts "Erro ao enviar dados para o cliente") d =
      [CPuts "Erro ao enviar dados para o cliente"] /\
    filter (is_puts "Resposta enviada") d = [] /\
    filter is_close d = [CClose c] /\
    exec (12 + fuel) init_server w = exec fuel init_server w'.
Proof.
  intros Hlen Hr Hc Hs.
  pose proof (accept_once_answered fuel w c s m rest Hlen Hr Hc) as Hturn.
  pose proof (accept_once_answered (S fuel) w c s m rest Hlen Hr Hc) as Hloop.
  apply Z.ltb_lt in Hs. rewrite Hs in Hturn, Hloop.
  do 2 eexists. unfold run. rewrite Hturn. cbn [fst log replies].
  split; [reflexivity|]. split; [reflexivity|]. split; [reflexivity|].
  split; [reflexivity|]. split; [reflexivity|]. split; [reflexivity|].
  split; [reflexivity|].
  unfold init_server. rewrite exec_forever.
  change (12 + fuel)%nat with (11 + S fuel)%nat.
  rewrite Hloop. reflexivity.
Qed.

Lemma send_failure_abandons_connection_witness :
  exists w' d,
    run 11 accept_once
      (mk_world 3 (repeat x2e 256) [RInt 4; RBytes [x68; x69]; RInt (-1)] []) =
      (w', Returned tt) /\
    log w' = [] ++ d /\
    replies w' = [] /\
    filter is_send d = [CSend 4 ack_bytes 0 (-1)] /\
    filter (is_puts "Erro ao enviar dados para o cliente") d =
      [CPuts "Erro ao enviar dados para o cliente"] /\
    filter (is_puts "Resposta enviada") d = [] /\
    filter is_close d = [CClose 4] /\
    exec 12 init_server
      (mk_world 3 (repeat x2e 256) [RInt 4; RBytes [x68; x69]; RInt (-1)] []) =
    exec 0 init_server w'.
Proof.
  apply (send_failure_abandons_connection 0
           (mk_world 3 (repeat x2e 256) [RInt 4; RBytes [x68; x69]; RInt (-1)] [])
           4 (-1) [x68; x69] []).
  - reflexivity.
  - reflexivity.
  - lia.
  - lia.
Defined.

(** ** The message in the buffer and in the log *)

Lemma byte_eqb_x00_sym (b : byte) : Byte.eqb x00 b = Byte.eqb b x00.
Proof. destruct b; reflexivity. Qed.

Lemma c_string_no_nul (mem : list byte) :
  has_nul mem = false -> c_string mem = mem.
Proof.
  unfold has_nul. induction mem as [|b mem IH]; cbn [existsb c_string]; intros H.
  - reflexivity.
  - apply orb_false_iff in H. destruct H as [Hb Hmem].
    rewrite byte_eqb_x00_sym in Hb. rewrite Hb, (IH Hmem). reflexivity.
Qed.

Lemma firstn_before_nul (pre post : list byte) :
  (length pre < 255)%nat ->
  exists tail, firstn 255 (pre ++ x00 :: post) = pre ++ x00 :: tail.
Proof.
  intros Hlt. rewrite firstn_app, firstn_all2 by lia.
  destruct (255 - length pre)%nat as [|k] eqn:Hk; [lia|].
  cbn [firstn]. eexists. reflexivity.
Qed.

Lemma handled_printf (c : Z) (m : list byte) (rest : list reply) :
  filter is_printf (fst (fst (handled c (RBytes m :: rest)))) =
  [CPrintf (client_line (c_string (firstn 255 m)))].
Proof.
  destruct rest as [|[s|m'] rest]; reflexivity.
Qed.

(** X5: what the server writes about a message is the text "Cliente: ", the
    received bytes up to the first NUL among them, and a line feed.  A message
    without NUL of at most 255 bytes is written whole; of a message with a
    NUL only what comes before it is written, although the acknowledgment is
    sent all the same; an empty message gives the bare line. *)
Theorem client_line_logged (fuel : nat) (w : world) (c : Z) (m : list byte)
  (rest : list reply) :
  length (buffer w) = 256%nat ->
  replies w = RBytes m :: rest ->
  exists w' o d,
    run (5 + fuel) (handle_client c) w = (w', o) /\
    log w' = log w ++ d /\
    filter is_printf d = [CPrintf (client_line (c_string (firstn 255 m)))] /\
    (has_nul m = false -> (length m <= 255)%nat -> c_string (firstn 255 m) = m) /\
    (forall pre post,
        m = pre ++ x00 :: post -> has_nul pre = false -> (length pre < 255)%nat ->
        c_string (firstn 255 m) = pre) /\
    (m = [] -> client_line (c_string (firstn 255 m)) = list_byte_of_string "Cliente: " ++ [x0a]).
Proof.
  intros Hlen Hr.
  destruct (handle_client_handled fuel c w Hlen) as (buf' & left' & _ & _ & Hrun).
  unfold run. rewrite Hrun. do 3 eexists. cbn [fst log].
  split; [reflexivity|]. split; [reflexivity|].
  split; [rewrite Hr; apply handled_printf|].
  split; [|split].
  - intros Hnul Hm. rewrite firstn_all2 by exact Hm. now apply c_string_no_nul.
  - intros pre post -> Hnul Hpre.
    destruct (firstn_before_nul pre post Hpre) as (tail & ->).
    rewrite c_string_terminated. now apply c_string_no_nul.
  - intros ->. reflexivity.
Qed.

Lemma client_line_logged_witness :
  exists w' o d,
    run 5 (handle_client 4)
      (mk_world 3 (repeat x2e 256) [RBytes [x68; x69; x00; x73]; RInt 10] []) = (w', o) /\
    log w' = [] ++ d /\
    filter is_printf d = [CPrintf (client_line (c_string (firstn 255 [x68; x69; x00; x73])))] /\
    (has_nul [x68; x69; x00; x73] = false -> (length [x68; x69; x00; x73] <= 255)%nat ->
     c_string (firstn 255 [x68; x69; x00; x73]) = [x68; x69; x00; x73]) /\
    (forall pre post,
        [x68; x69; x00; x73] = pre ++ x00 :: post -> has_nul pre = false ->
        (length pre < 255)%nat ->
        c_string (firstn 255 [x68; x69; x00; x73]) = pre) /\
    ([x68; x69; x00; x73] = [] ->
     client_line (c_string (firstn 255 [x68; x69; x00; x73])) =
     list_byte_of_string "Cliente: " ++ [x0a]).
Proof.
  apply (client_line_logged 0
           (mk_world 3 (repeat x2e 256) [RBytes [x68; x69; x00; x73]; RInt 10] [])
           4 [x68; x69; x00; x73] [RInt 10]).
  - reflexivity.
  - reflexivity.
Defined.

(** The buffer after a successful receive, whatever becomes of the send. *)
Lemma handle_client_buffer (fuel : nat) (c : Z) (w : world) (m : list byte)
  (rest : list reply) :
  length (buffer w) = 256%nat ->
  replies w = RBytes m :: rest ->
  buffer (fst (run (5 + fuel) (handle_client c) w)) =
  firstn 255 m ++ x00 :: skipn (S (length (firstn 255 m))) (buffer w).
Proof.
  intros Hlen Hr. unfold run.
  change (5 + fuel)%nat with (3 + (2 + fuel))%nat.
  rewrite (handle_client_received _ c w m rest Hlen Hr).
  cbn [Nat.add]. rewrite exec_call. cbn [kernel]. rewrite send_call_response.
  unfold int_call. cbn [replies].
  destruct rest as [|[s|m'] rest]; try reflexivity.
  world_simpl. destruct (s <? 0); rewrite exec_last; reflexivity.
Qed.

(** X6: the handler writes the received bytes and one terminator and
    nothing more.  After a receive of [n] bytes the buffer is a terminated
    string that reads as the message, and every byte past index [n] is what
    it was before the call: the buffer is never cleared, and what an earlier,
    longer message left behind stays in memory. *)
Theorem handler_writes_prefix_only (fuel : nat) (w : world) (c : Z) (m : list byte)
  (rest : list reply) :
  length (buffer w) = 256%nat ->
  replies w = RBytes m :: rest ->
  let w' := fst (run (5 + fuel) (handle_client c) w) in
  let n := length (firstn 255 m) in
  firstn n (buffer w') = firstn 255 m /\
  nth_error (buffer w') n = Some x00 /\
  skipn (S n) (buffer w') = skipn (S n) (buffer w) /\
  length (buffer w') = 256%nat /\
  has_nul (buffer w') = true /\
  c_string (buffer w') = c_string (firstn 255 m).
Proof.
  intros Hlen Hr w' n. unfold w'.
  rewrite (handle_client_buffer fuel c w m rest Hlen Hr). fold n.
  pose proof (length_firstn_le 255 m) as Hd. fold n in Hd.
  destruct (terminated_buffer_shape (firstn 255 m) (skipn (S n) (buffer w))) as [H1 H2].
  split; [exact H1|]. split; [exact H2|]. split.
  - change (firstn 255 m ++ x00 :: skipn (S n) (buffer w))
      with (firstn 255 m ++ [x00] ++ skipn (S n) (buffer w)).
    rewrite app_assoc, skipn_app.
    rewrite skipn_all2 by (rewrite length_app; cbn [length]; fold n; lia).
    replace (S n - length (firstn 255 m ++ [x00]))%nat with 0%nat
      by (rewrite length_app; cbn [length]; fold n; lia).
    reflexivity.
  - split; [unfold n; rewrite terminated_buffer_length; lia|].
    split; [apply has_nul_terminated | apply c_string_terminated].
Qed.

Lemma handler_writes_prefix_only_witness :
  let w := mk_world 3 ([x73; x65; x63; x72; x65; x74; x00] ++ repeat x41 249)
             [RBytes [x68; x69]; RInt 10] [] in
  let w' := fst (run 5 (handle_client 4) w) in
  let n := length (firstn 255 [x68; x69]) in
  firstn n (buffer w') = firstn 255 [x68; x69] /\
  nth_error (buffer w') n = Some x00 /\
  skipn (S n) (buffer w') = skipn (S n) (buffer w) /\
  length (buffer w') = 256%nat /\
  has_nul (buffer w') = true /\
  c_string (buffer w') = c_string (firstn 255 [x68; x69]).
Proof.
  apply (handler_writes_prefix_only 0
           (mk_world 3 ([x73; x65; x63; x72; x65; x74; x00] ++ repeat x41 249)
              [RBytes [x68; x69]; RInt 10] [])
           4 [x68; x69] [RInt 10]).
  - reflexivity.
  - reflexivity.
Defined.

(** ** One connection after another *)

(** More turns than there are replies add nothing to the log. *)
Lemma serve_stable (n : nat) :
  forall (n' : nat) (ss : Z) (reps : list reply),
    (length reps < n)%nat ->
    (length reps < n')%nat ->
    serve n ss reps = serve n' ss reps.
Proof.
  induction n as [|n IH]; intros n' ss reps Hn Hn'; [lia|].
  destruct n' as [|n']; [lia|]. cbn [serve].
  pose proof (turn_consumes ss reps) as Hcons.
  destruct (turn ss reps) as [[d completed] rest]. cbn [fst snd] in Hcons.
  destruct completed; [|reflexivity].
  specialize (Hcons eq_refl). f_equal. apply IH; lia.
Qed.

(** X7: a turn that has returned leaves nothing behind that the loop could
    stumble on.  Whether the accept failed, the receive failed, the send failed
    or the exchange went through, the server then treats the replies that
    remain as a server does that starts on them with another buffer and
    another past. *)
Theorem completed_turn_isolated (fuel0 fuel fuel2 : nat) (w w1 w2 : world) :
  length (buffer w) = 256%nat ->
  length (buffer w2) = 256%nat ->
  run (11 + fuel0) accept_once w = (w1, Returned tt) ->
  server_socket w2 = server_socket w1 ->
  replies w2 = replies w1 ->
  (enough_fuel w <= fuel)%nat ->
  (enough_fuel w2 <= fuel2)%nat ->
  exists w' w2' d,
    run fuel init_server w = (w', Blocked) /\
    run fuel2 init_server w2 = (w2', Blocked) /\
    log w' = log w1 ++ d /\
    log w2' = log w2 ++ d /\
    (length (replies w1) < length (replies w))%nat.
Proof.
  intros Hlen Hlen2 Hturn Hss Hr Hfuel Hfuel2.
  destruct (accept_once_turn fuel0 w Hlen) as (buf1 & left1 & _ & _ & Hexec).
  unfold run in Hturn. rewrite Hexec in Hturn. cbn [fst] in Hturn.
  destruct (init_server_log w fuel Hlen Hfuel) as (w' & Hrun & _ & Hlog).
  destruct (init_server_log w2 fuel2 Hlen2 Hfuel2) as (w2' & Hrun2 & _ & Hlog2).
  cbn [serve] in Hlog.
  pose proof (turn_consumes (server_socket w) (replies w)) as Hcons.
  destruct (turn (server_socket w) (replies w)) as [[d1 completed] rest1].
  cbn [fst snd] in *.
  destruct completed; [|discriminate].
  injection Hturn as Hw1. subst w1. cbn [server_socket replies log] in *.
  specialize (Hcons eq_refl).
  exists w', w2', (serve (S (length rest1)) (server_socket w) rest1).
  split; [exact Hrun|]. split; [exact Hrun2|].
  split.
  - rewrite Hlog, <- app_assoc. f_equal. f_equal. apply serve_stable; lia.
  - split; [rewrite Hlog2, Hss, Hr; reflexivity | exact Hcons].
Qed.

Lemma completed_turn_isolated_witness :
  exists w' w2' d,
    run 48 init_server
      (mk_world 3 (repeat x2e 256) [RInt 4; RInt (-1); RInt 5] []) = (w', Blocked) /\
    run 24 init_server (mk_world 3 (repeat x41 256) [RInt 5] []) = (w2', Blocked) /\
    log w' =
      [CPuts "Aguardando conexao do cliente..."; CAccept 3 4; CPuts "Cliente conectado";
       CRecv 4 255 0 (-1) []; CPuts "Erro ao receber dados do cliente";
       CClose 4; CPuts "Conexao encerrada"] ++ d /\
    log w2' = [] ++ d /\
    (length [RInt 5] < length [RInt 4; RInt (-1); RInt 5])%nat.
Proof.
  apply (completed_turn_isolated 0 48 24
           (mk_world 3 (repeat x2e 256) [RInt 4; RInt (-1); RInt 5] [])
           (mk_world 3 (repeat x2e 256) [RInt 5]
              [CPuts "Aguardando conexao do cliente..."; CAccept 3 4;
               CPuts "Cliente conectado";
               CRecv 4 255 0 (-1) []; CPuts "Erro ao receber dados do cliente";
               CClose 4; CPuts "Conexao encerrada"])
           (mk_world 3 (repeat x41 256) [RInt 5] [])).
  - reflexivity.
  - reflexivity.
  - reflexivity.
  - reflexivity.
  - reflexivity.
  - unfold enough_fuel. simpl. lia.
  - unfold enough_fuel. simpl. lia.
Defined.

Lemma handled_loop_calls (ss c : Z) (reps : list reply) :
  Forall (loop_call ss) (fst (fst (handled c reps))).
Proof.
  destruct reps as [|[z|m] [|[s|m'] reps]]; cbn [handled];
    try destruct (z <? 0); cbn [fst app]; repeat constructor.
Qed.

Lemma turn_loop_calls (ss : Z) (reps : list reply) :
  Forall (loop_call ss) (fst (fst (turn ss reps))).
Proof.
  destruct reps as [|[c|m] reps]; cbn [turn]; try (repeat constructor).
  destruct (c <? 0); [repeat constructor|].
  pose proof (handled_loop_calls ss c reps) as H.
  destruct (handled c reps) as [[d completed] reps'].
  cbn [fst] in H. destruct completed; cbn [fst].
  - apply Forall_cons; [exact I|]. apply Forall_cons; [reflexivity|].
    apply Forall_cons; [exact I|]. apply Forall_app. split; [exact H|].
    repeat constructor.
  - apply Forall_cons; [exact I|]. apply Forall_cons; [reflexivity|].
    apply Forall_cons; [exact I|]. exact H.
Qed.

Lemma serve_loop_calls (n : nat) :
  forall (ss : Z) (reps : list reply), Forall (loop_call ss) (serve n ss reps).
Proof.
  induction n as [|n IH]; intros ss reps; cbn [serve]; [constructor|].
  pose proof (turn_loop_calls ss reps) as H.
  destruct (turn ss reps) as [[d completed] rest]. cbn [fst] in H.
  destruct completed; [apply Forall_app; split; [exact H | apply IH] | exact H].
Qed.

(** X8: the accept loop takes the listening socket as it finds it.  It never
    writes the global [server_socket], every [accept] it makes is on the
    value the global had at entry, with no test of that value, and it makes
    none of the startup calls: a server whose startup failed is not started
    again by the loop. *)
Theorem init_server_keeps_listening_socket (fuel : nat) (w : world) :
  length (buffer w) = 256%nat ->
  (enough_fuel w <= fuel)%nat ->
  exists w' d,
    run fuel init_server w = (w', Blocked) /\
    log w' = log w ++ d /\
    server_socket w' = server_socket w /\
    Forall (loop_call (server_socket w)) d.
Proof.
  intros Hlen Hfuel.
  destruct (init_server_serves (S (length (replies w))) w fuel)
    as (buf' & reps' & left' & _ & Hrun); [lia | exact Hlen | exact Hfuel |].
  unfold run. rewrite Hrun. do 2 eexists. cbn [fst log server_socket].
  split; [reflexivity|]. split; [reflexivity|]. split; [reflexivity|].
  apply serve_loop_calls.
Qed.

Lemma init_server_keeps_listening_socket_witness :
  exists w' d,
    run 36 init_server (mk_world (-1) (repeat x2e 256) [RInt (-1); RInt (-1)] []) =
      (w', Blocked) /\
    log w' = [] ++ d /\
    server_socket w' = -1 /\
    Forall (loop_call (-1)) d.
Proof.
  apply (init_server_keeps_listening_socket 36
           (mk_world (-1) (repeat x2e 256) [RInt (-1); RInt (-1)] [])).
  - reflexivity.
  - unfold enough_fuel. simpl. lia.
Defined.

Lemma serve_clients (xs : list client) :
  forall (n : nat) (ss : Z),
    (length xs < n)%nat ->
    Forall (fun x => 0 <= client_fd x) xs ->
    filter is_send (serve n ss (flat_map client_replies xs)) = map client_ack xs /\
    filter is_close (serve n ss (flat_map client_replies xs)) =
      map (fun x => CClose (client_fd x)) xs.
Proof.
  induction xs as [|[[c m] s] xs IH]; intros n ss Hn Hfd.
  - destruct n as [|n]; [lia|]. split; reflexivity.
  - destruct n as [|n]; [cbn [length] in Hn; lia|].
    inversion Hfd as [|? ? Hc Hfd']; subst. cbn [client_fd] in Hc.
    cbn [flat_map client_replies app].
    rewrite serve_after_exchange by exact Hc.
    destruct (IH n ss ltac:(cbn [length] in Hn; lia) Hfd') as [IHs IHc].
    rewrite !filter_app, IHs, IHc.
    cbn [turn handled]. destruct (Z.ltb_spec c 0) as [Hbad|_]; [lia|].
    split; reflexivity.
Qed.



(** ** The loop and the signal *)

Lemma exec_signals_observe {R : Type} (fuel : nat) (t u : itree sysE R) (w : world)
  (closed : list bool) :
  observe t = observe u -> exec_signals fuel t w closed = exec_signals fuel u w closed.
Proof.
  intros H. destruct fuel; simpl; rewrite H; reflexivity.
Qed.

Lemma exec_signals_bind {A B : Type} (fuel : nat) :
  forall (t : itree sysE A) (k : A -> itree sysE B) (w : world) (closed : list bool),
    exec_signals fuel (ITree.bind t k) w closed =
    match exec_signals fuel t w closed with
    | (w1, Lives (Returned a), rest, later) => exec_signals rest (k a) w1 later
    | (w1, Lives Blocked, rest, later) => (w1, Lives Blocked, rest, later)
    | (w1, Lives Undefined, rest, later) => (w1, Lives Undefined, rest, later)
    | (w1, Lives OutOfFuel, rest, later) => (w1, Lives OutOfFuel, rest, later)
    | (w1, Killed, rest, later) => (w1, Killed, rest, later)
    end.
Proof.
  induction fuel as [|fuel IH]; intros t k w closed;
    rewrite (exec_signals_observe _ _ _ _ _ (observe_bind t k)).
  - simpl. destruct (observe t); reflexivity.
  - simpl. destruct (observe t); simpl.
    + reflexivity.
    + apply IH.
    + destruct (sigpipe e closed) as [[|] later]; [reflexivity|].
      destruct (kernel e w); try reflexivity. apply IH.
Qed.

Lemma exec_signals_forever {A B : Type} (fuel : nat) (t : itree sysE A) (w : world)
  (closed : list bool) :
  exec_signals fuel (ITree.forever t : itree sysE B) w closed =
  match exec_signals fuel t w closed with
  | (w1, Lives (Returned _), S rest, later) => exec_signals rest (ITree.forever t) w1 later
  | (w1, Lives (Returned _), O, later) => (w1, Lives OutOfFuel, O, later)
  | (w1, Lives Blocked, rest, later) => (w1, Lives Blocked, rest, later)
  | (w1, Lives Undefined, rest, later) => (w1, Lives Undefined, rest, later)
  | (w1, Lives OutOfFuel, rest, later) => (w1, Lives OutOfFuel, rest, later)
  | (w1, Killed, rest, later) => (w1, Killed, rest, later)
  end.
Proof.
  rewrite (exec_signals_observe fuel (ITree.forever t)
             (ITree.bind t (fun _ => Tau (ITree.forever t))) w closed) by reflexivity.
  rewrite exec_signals_bind.
  destruct (exec_signals fuel t w closed) as [[[w1 f] rest] later].
  destruct f as [o|]; [|reflexivity].
  destruct o; try reflexivity. destruct rest; reflexivity.
Qed.

Lemma sigpipe_quiet {T : Type} (e : sysE T) (closed : list bool) :
  no_sigpipe closed ->
  fst (sigpipe e closed) = false /\ no_sigpipe (snd (sigpipe e closed)).
Proof.
  intros H. destruct e; cbn [sigpipe fst snd]; try (split; [reflexivity | exact H]).
  destruct H as [|gone later Hgone Hlater]; cbn [fst snd].
  - split; [reflexivity | constructor].
  - subst gone. split; [reflexivity | exact Hlater].
Qed.

(** Without a signal the run is the run of [exec]. *)
Lemma run_signals_quiet {R : Type} (fuel : nat) :
  forall (t : itree sysE R) (w : world) (closed : list bool),
    no_sigpipe closed ->
    run_signals fuel t w closed = (fst (run fuel t w), Lives (snd (run fuel t w))).
Proof.
  unfold run_signals, run.
  induction fuel as [|fuel IH]; intros t w closed Hq; simpl.
  - destruct (observe t); reflexivity.
  - destruct (observe t); try reflexivity.
    + apply IH. exact Hq.
    + destruct (sigpipe_quiet e closed Hq) as [Hno Hlater].
      destruct (sigpipe e closed) as [raised later]. cbn [fst snd] in Hno, Hlater.
      subst raised. destruct (kernel e w); try reflexivity.
      apply IH. exact Hlater.
Qed.

(** A run that was not killed is a run of [exec]. *)
Lemma run_signals_lives {R : Type} (fuel : nat) :
  forall (t : itree sysE R) (w w' : world) (closed : list bool) (o : outcome R),
    run_signals fuel t w closed = (w', Lives o) ->
    run fuel t w = (w', o).
Proof.
  unfold run_signals, run.
  induction fuel as [|fuel IH]; intros t w w' closed o; simpl.
  - destruct (observe t); cbn [fst]; intros H; inversion H; reflexivity.
  - destruct (observe t); cbn [fst].
    + intros H; inversion H; reflexivity.
    + apply IH.
    + destruct (sigpipe e closed) as [[|] later]; cbn [fst].
      * intros H; inversion H.
      * destruct (kernel e w); cbn [fst].
        -- apply IH.
        -- intros H; inversion H; reflexivity.
        -- intros H; inversion H; reflexivity.
Qed.



